(** * cipw-norm: the normative calculator and the saved-analyses store

    A shallow embedding of [streamlit_app.py]: [calculate_cipw] (the
    simplified CIPW normative calculation) and the two persistence
    functions [load_saved_analyses] and [write_saved_analyses].

    Number model.  A Python [float] is modelled as an exact rational
    ([Q]): the arithmetic of the calculator is carried out without the
    rounding of binary64, and there is neither overflow nor NaN.  The
    comparisons are the exact ones ([Py.gt], [Py.le]); [a / b] raises
    [ZeroDivisionError] on a zero divisor as Python's float division does;
    [round(x, 4)] rounds half to even, as Python does on the exact value of
    its argument.  Equalities between computed weights are stated up to
    [Qeq] ([==]) where the two sides are different fractions of the same
    number, and with [=] where the code produces the very same literal.

    Dictionaries.  The input [oxides] is used as a map only
    ([oxides.get(k, 0.0)]) and is a [gmap string Q].  The dictionaries the
    calculator builds ([raw], [minerals], [descriptions]) are iterated in
    insertion order, so they are association lists in that order.

    The store.  [load_saved_analyses] and [write_saved_analyses] act on
    one file; the file system is a map from paths to files, a write is the
    sequence of steps it performs on that map, and the json library, which
    is not code of this repository, is a parameter ([JsonLibrary]).  The
    source has no function that saves or deletes one record; the
    operations of that name in [AnalysisStore] follow the specification
    and are built from the two functions of the source. *)

From Stdlib Require Import ZArith QArith Qround Qabs Qminmax Qreduction.
From Stdlib Require Import Lia Lqa String Ascii List.
From stdpp Require Import strings gmap.
Import ListNotations.

#[local] Set Warnings "-register-all".

Local Open Scope string_scope.

(** ** The fragment of Python the program uses *)

Module Py.

(** The exceptions that can be raised on the paths modelled here. *)
Inductive exn : Type :=
| ZeroDivisionError
| FileNotFoundError
| PermissionError
| JSONDecodeError.

(** A computation either returns a value or raises. *)
Inductive result (A : Type) : Type :=
| Return (a : A)
| Raise (e : exn).
Arguments Return {A} a.
Arguments Raise {A} e.

Definition bind {A B} (c : result A) (k : A -> result B) : result B :=
  match c with
  | Return a => k a
  | Raise e => Raise e
  end.

(** [try: body / except: handler] with a bare [except]. *)
Definition try_except {A} (body : result A) (handler : exn -> result A)
  : result A :=
  match body with
  | Return a => Return a
  | Raise e => handler e
  end.

(** [a > b] on floats. *)
Definition gt (a b : Q) : bool := negb (Qle_bool a b).

(** [a <= b] on floats. *)
Definition le (a b : Q) : bool := Qle_bool a b.

(** [a / b] on floats. *)
Definition truediv (a b : Q) : result Q :=
  if Qeq_bool b 0 then Raise ZeroDivisionError else Return (a / b)%Q.

(** [max(a, b)]: the first argument unless the second is larger. *)
Definition max (a b : Q) : Q := if gt b a then b else a.

(** [sum(xs)]: starts from 0 and adds from the left. *)
Definition sum (xs : list Q) : Q := fold_left Qplus xs 0%Q.

(** The integer nearest to [q], ties going to the even one. *)
Definition round_half_even (q : Q) : Z :=
  let f := Qfloor q in
  match Qcompare (q - inject_Z f) (1 # 2) with
  | Lt => f
  | Gt => (f + 1)%Z
  | Eq => if Z.even f then f else (f + 1)%Z
  end.

(** [round(x, ndigits)] for a non-negative [ndigits]. *)
Definition round (x : Q) (ndigits : nat) : Q :=
  let p := Z.to_pos (10 ^ Z.of_nat ndigits) in
  Qmake (round_half_even (x * inject_Z (Zpos p))) p.

(** [d.keys()], [d.values()] of a dictionary kept in insertion order. *)
Definition keys {V} (d : list (string * V)) : list string := map fst d.
Definition values {V} (d : list (string * V)) : list V := map snd d.

(** [{k: f(k, v) for k, v in d.items()}] where [f] may raise. *)
Fixpoint dict_comprehension {V W} (f : string -> V -> result W)
    (d : list (string * V)) : result (list (string * W)) :=
  match d with
  | [] => Return []
  | (k, v) :: d' =>
      bind (f k v) (fun w =>
      bind (dict_comprehension f d') (fun r =>
      Return ((k, w) :: r)))
  end.

End Py.

Import Py.

#[global] Instance result_ret : MRet result := @Return.
#[global] Instance result_bind : MBind result := fun A B k c => Py.bind c k.

(** ** The calculator: [calculate_cipw] *)

Definition OXIDES : list string :=
  ["SiO2"; "Al2O3"; "Fe2O3"; "FeO"; "MgO"; "CaO"; "Na2O"; "K2O"; "TiO2"; "P2O5"].

Definition MW_FE2O3 : Q := 15969 # 100.   (* 159.69 *)
Definition MW_FEO : Q := 71844 # 1000.    (* 71.844 *)

(** [float(oxides.get(key, 0.0))] *)
Definition get (oxides : gmap string Q) (key : string) : Q :=
  default 0%Q (oxides !! key).

(** Lines 55-56: the value of [FeO] after the iron fallback. *)
Definition impute_FeO (FeO Fe2O3 : Q) : result Q :=
  if Py.le FeO 0 && Py.gt Fe2O3 0 then
    f ← truediv (2 * MW_FEO) MW_FE2O3;
    Return (Fe2O3 * f)%Q
  else Return FeO.

(** Lines 58-68: the dictionary [raw], given the ten oxide values with
    [FeO] already replaced by the outcome of the fallback. *)
Definition raw_dict (SiO2 Al2O3 Fe2O3 FeO MgO CaO Na2O K2O TiO2 P2O5 : Q)
  : list (string * Q) :=
  [ ("Quartz (Q)", Py.max 0 (SiO2 - (Al2O3 * 2 + CaO + MgO)));
    ("Orthoclase (Or)", K2O * (658 # 100));
    ("Albite (Ab)", Na2O * (852 # 100));
    ("Anorthite (An)", CaO * (235 # 100));
    ("Diopside (Di)", (CaO + MgO) * (11 # 10));
    ("Olivine (Ol)", (MgO + FeO) * (9 # 10));
    ("Magnetite (Mt)", Fe2O3 * (143 # 100));
    ("Ilmenite (Il)", TiO2 * (189 # 100));
    ("Apatite (Ap)", P2O5 * (333 # 100)) ]%Q.

(** Lines 44-68: reading the ten oxides, the fallback, and [raw]. *)
Definition raw_weights (oxides : gmap string Q) : result (list (string * Q)) :=
  let SiO2 := get oxides "SiO2" in
  let Al2O3 := get oxides "Al2O3" in
  let Fe2O3 := get oxides "Fe2O3" in
  let FeO := get oxides "FeO" in
  let MgO := get oxides "MgO" in
  let CaO := get oxides "CaO" in
  let Na2O := get oxides "Na2O" in
  let K2O := get oxides "K2O" in
  let TiO2 := get oxides "TiO2" in
  let P2O5 := get oxides "P2O5" in
  FeO ← impute_FeO FeO Fe2O3;
  Return (raw_dict SiO2 Al2O3 Fe2O3 FeO MgO CaO Na2O K2O TiO2 P2O5).

(** Line 71: one entry of the comprehension that builds [minerals]. *)
Definition normalize_entry (total_raw : Q) (k : string) (v : Q) : result Q :=
  if Py.gt total_raw 0 then
    x ← truediv v total_raw;
    Return (Py.round (x * 100) 4)
  else Return 0%Q.

(** Lines 73-83. *)
Definition descriptions : list (string * string) :=
  [ ("Quartz (Q)", "Silicon dioxide — common in acidic and felsic rocks.");
    ("Orthoclase (Or)", "Potassium feldspar (KAlSi3O8) — common in silicic rocks.");
    ("Albite (Ab)", "Sodium feldspar (NaAlSi3O8) — typical in many silicic rocks.");
    ("Anorthite (An)", "Calcium feldspar (CaAl2Si2O8) — indicates higher Ca content.");
    ("Diopside (Di)", "Calcium–magnesium pyroxene — common in mafic to intermediate rocks.");
    ("Olivine (Ol)", "Mg–Fe silicate — typical of mafic and ultramafic rocks.");
    ("Magnetite (Mt)", "Iron oxide — an indicator of oxidation state (Fe3+).");
    ("Ilmenite (Il)", "Titanium–iron oxide — indicator of Ti presence.");
    ("Apatite (Ap)", "Calcium phosphate — phosphorus carrier.") ].

(** Lines 43-85. *)
Definition calculate_cipw (oxides : gmap string Q)
  : result (list (string * Q) * list (string * string)) :=
  raw ← raw_weights oxides;
  let total_raw := Py.sum (Py.values raw) in
  minerals ← dict_comprehension (normalize_entry total_raw) raw;
  Return (minerals, descriptions).

(** The end-to-end composition of the specification. *)
Definition scenario : gmap string Q :=
  list_to_map
    [ ("SiO2", 60); ("Al2O3", 15); ("Fe2O3", 3); ("FeO", 4); ("MgO", 4);
      ("CaO", 7); ("Na2O", 3); ("K2O", 2); ("TiO2", 1); ("P2O5", 1 # 2) ]%Q.

(** *** Notions used to state the properties of the calculator *)

(** The invariant of an oxide composition: every value is non-negative. *)
Definition non_negative (oxides : gmap string Q) : Prop :=
  forall k v, oxides !! k = Some v -> (0 <= v)%Q.

(** [d[k]] on a dictionary kept in insertion order. *)
Fixpoint item {V} (d : list (string * V)) (k : string) : option V :=
  match d with
  | [] => None
  | (k', v) :: d' => if String.eqb k' k then Some v else item d' k
  end.

(** The names of the nine normative minerals, in the order of [raw]. *)
Definition MINERALS : list string :=
  [ "Quartz (Q)"; "Orthoclase (Or)"; "Albite (Ab)"; "Anorthite (An)";
    "Diopside (Di)"; "Olivine (Ol)"; "Magnetite (Mt)"; "Ilmenite (Il)";
    "Apatite (Ap)" ].

(** The factor of the iron fallback, [(2 * MW_FEO) / MW_FE2O3]. *)
Definition iron_factor : Q := (2 * MW_FEO) / MW_FE2O3.

(** What line 71 computes for one raw weight when the total is positive,
    and the whole dictionary in either case. *)
Definition percent_of (total v : Q) : Q := Py.round (v / total * 100) 4.

Definition normalized (total : Q) (raw : list (string * Q)) : list (string * Q) :=
  map (fun kv => (fst kv, percent_of total (snd kv))) raw.

Definition zeroed (raw : list (string * Q)) : list (string * Q) :=
  map (fun kv => (fst kv, 0%Q)) raw.

(** The composition [oxides] with every oxide symbol it does not mention
    set to 0.0 explicitly: [{**{ox: 0.0 for ox in OXIDES}, **oxides}]. *)
Definition zero_composition : gmap string Q :=
  list_to_map (map (fun ox => (ox, 0%Q)) OXIDES).

Definition with_defaults (oxides : gmap string Q) : gmap string Q :=
  oxides ∪ zero_composition.

(** The example compositions of the specification. *)
Definition iron_example : gmap string Q :=
  list_to_map [ ("Fe2O3", 10%Q); ("FeO", 0%Q) ].

Definition quartz_example : gmap string Q :=
  list_to_map [ ("SiO2", 40%Q); ("Al2O3", 30%Q); ("CaO", 10%Q); ("MgO", 5%Q) ].

(** ** The saved-analyses store *)

(** *** The environment: JSON values, the json library, the file system *)

(** What [json.load] can return and [json.dump] accepts.  A Python [dict]
    with string keys is compared key by key, so it is a [gmap]. *)
Inductive json : Type :=
| JNull
| JBool (b : bool)
| JNum (q : Q)
| JStr (s : string)
| JArr (xs : list json)
| JObj (d : gmap string json).

(** The two entry points of Python's json library that the store calls.
    They are not code of this repository, so the store is modelled over
    any implementation of them; [MiniJson] below is one. *)
Class JsonLibrary : Type := {
  (** the chunks [json.dump(obj, f, ensure_ascii=False, indent=2)] passes
      to [f.write], one after the other *)
  iterencode : json -> list string;
  (** [json.load(f)] on a file whose text is the argument *)
  loads : string -> result json
}.

(** The whole text [json.dump] writes. *)
Definition dumps `{JsonLibrary} (obj : json) : string :=
  String.concat "" (iterencode obj).

(** A file: whether it can be opened for reading, for writing, and its
    text.  A file whose bytes cannot be read or decoded has
    [readable = false]. *)
Record file : Type := File {
  readable : bool;
  writable : bool;
  content : string
}.

(** The file system maps a path to the file there, if any. *)
Abbreviation filesystem := (gmap string file).

Definition DATA_DIR : string := "data".
Definition SAVED_JSON : string := DATA_DIR ++ "/" ++ "saved_analyses.json".

(** [os.path.exists(path)] *)
Definition os_path_exists (fs : filesystem) (path : string) : bool :=
  match fs !! path with Some _ => true | None => false end.

(** [open(path, "r", encoding="utf-8")] followed by reading all of it. *)
Definition read_text (fs : filesystem) (path : string) : result string :=
  match fs !! path with
  | None => Raise FileNotFoundError
  | Some f => if readable f then Return (content f) else Raise PermissionError
  end.

(** The steps by which a program changes the file system. *)
Inductive syscall : Type :=
| OpenTruncate (path : string)            (* open(path, "w") *)
| Write (path : string) (chunk : string)  (* f.write(chunk) *)
| Close (path : string).                  (* leaving the with block *)

Definition syscall_path (op : syscall) : string :=
  match op with
  | OpenTruncate path | Write path _ | Close path => path
  end.

Definition step (op : syscall) (fs : filesystem) : result filesystem :=
  match op with
  | OpenTruncate path =>
      match fs !! path with
      | None => Return (<[path := File true true ""]> fs)
      | Some f =>
          if writable f
          then Return (<[path := File (readable f) true ""]> fs)
          else Raise PermissionError
      end
  | Write path chunk =>
      match fs !! path with
      | None => Return fs
      | Some f =>
          Return (<[path := File (readable f) (writable f) (content f ++ chunk)]> fs)
      end
  | Close path => Return fs
  end.

(** Running the steps in order; a step that raises ends the run. *)
Fixpoint exec (ops : list syscall) (fs : filesystem) : result filesystem :=
  match ops with
  | [] => Return fs
  | op :: ops' => fs' ← step op fs; exec ops' fs'
  end.

(** The states another process can find the file system in while the
    steps run: the state after each completed step.  (Python buffers the
    text of [f.write]; which of the states between the open and the close
    reach the disk depends on the buffer, the truncation by the open does
    at once.) *)
Fixpoint observable (ops : list syscall) (fs : filesystem) : list filesystem :=
  match ops with
  | [] => []
  | op :: ops' =>
      match step op fs with
      | Return fs' => fs' :: observable ops' fs'
      | Raise _ => []
      end
  end.

(** *** The two persistence functions of the source *)

(** Lines 90-98. *)
Definition load_saved_analyses `{JsonLibrary} (fs : filesystem)
  : result (gmap string json) :=
  if negb (os_path_exists fs SAVED_JSON) then Return ∅
  else
    try_except
      (text ← read_text fs SAVED_JSON;
       data ← loads text;
       Return (match data with JObj d => d | _ => ∅ end))
      (fun _ => Return ∅).

(** Lines 100-102, as the steps they take on the file system: the [open]
    in mode "w", one [f.write] per chunk of [json.dump], and the close at
    the end of the [with] block. *)
Definition write_saved_analyses_steps `{JsonLibrary} (d : gmap string json)
  : list syscall :=
  OpenTruncate SAVED_JSON
    :: map (Write SAVED_JSON) (iterencode (JObj d)) ++ [Close SAVED_JSON].

(** Lines 100-102, as the file system they leave, or the exception of the
    step that fails. *)
Definition write_saved_analyses `{JsonLibrary} (d : gmap string json)
    (fs : filesystem) : result filesystem :=
  exec (write_saved_analyses_steps d) fs.

(** *** The store operations of the specification *)

(** Modelled from the spec: the record a saved run consists of.  The source
    declares no such type. *)
Record AnalysisRecord : Type := {
  name : string;
  timestamp : string;
  note : string;
  oxides_snapshot : gmap string Q;
  result_weights : gmap string Q
}.

(** Modelled from the spec: the record as it appears in the persisted
    document, a flat object per field. *)
Definition record_to_json (r : AnalysisRecord) : json :=
  JObj (list_to_map
          [ ("name", JStr (name r));
            ("timestamp", JStr (timestamp r));
            ("note", JStr (note r));
            ("oxides", JObj (JNum <$> oxides_snapshot r));
            ("result", JObj (JNum <$> result_weights r)) ]).

Module AnalysisStore.

(** Modelled from the spec: [load_all] is the reading function of the
    source. *)
Definition load_all `{JsonLibrary} (fs : filesystem) : result (gmap string json) :=
  load_saved_analyses fs.

(** Modelled from the spec: [save], which the source does not define.  It
    reads the whole document, puts the record under its name and writes
    the whole document back with [write_saved_analyses]. *)
Definition save `{JsonLibrary} (r : AnalysisRecord) (fs : filesystem)
  : result filesystem :=
  d ← load_saved_analyses fs;
  write_saved_analyses (<[name r := record_to_json r]> d) fs.


End AnalysisStore.

(** *** A json library to run the store on concrete documents

    An implementation of the two entry points, for the subset of JSON
    without exponents in numbers and with [\u] escapes below 0x80 only.
    Numbers are written with at most 17 digits after the point.  Object
    members are written in the order of [map_to_list], not in insertion
    order. *)
Module MiniJson.

Local Open Scope char_scope.

Definition digit (n : Z) : ascii := ascii_of_nat (48 + Z.to_nat n).

Definition hex_digit (n : nat) : ascii :=
  if (n <? 10)%nat then ascii_of_nat (48 + n) else ascii_of_nat (87 + n).

(** The decimal digits of [n >= 0], most significant first. *)
Fixpoint digits_of (fuel : nat) (n : Z) (acc : string) : string :=
  match fuel with
  | O => acc
  | S fuel' =>
      let acc' := String (digit (n mod 10)) acc in
      if (n / 10 =? 0)%Z then acc' else digits_of fuel' (n / 10) acc'
  end.

Definition int_str (n : Z) : string :=
  digits_of (S (Z.to_nat (Z.log2 n))) n EmptyString.

(** The digits of [num / den < 1] after the point. *)
Fixpoint fraction_digits (fuel : nat) (num den : Z) : string :=
  match fuel with
  | O => EmptyString
  | S fuel' =>
      if (num =? 0)%Z then EmptyString
      else String (digit (num * 10 / den))
             (fraction_digits fuel' ((num * 10) mod den) den)
  end.

(** [float.__repr__] for the numbers that need no exponent. *)
Definition floatstr (q : Q) : string :=
  let n := Z.abs (Qnum q) in
  let d := Zpos (Qden q) in
  ((if (Qnum q <? 0)%Z then "-" else EmptyString)
     ++ int_str (n / d) ++ "."
     ++ (if (n mod d =? 0)%Z then "0" else fraction_digits 17 (n mod d) d))%string.

Definition quote : ascii := ascii_of_nat 34.
Definition backslash : ascii := ascii_of_nat 92.

(** A backslash and one more character. *)
Definition esc (c : ascii) : string := String backslash (String c EmptyString).

(** The text of a string between the quotes. *)
Fixpoint escape (s : string) : string :=
  match s with
  | EmptyString => EmptyString
  | String c s' =>
      let n := nat_of_ascii c in
      ((if (n =? 34)%nat then esc quote
        else if (n =? 92)%nat then esc backslash
        else if (n =? 10)%nat then esc "n"
        else if (n =? 13)%nat then esc "r"
        else if (n =? 9)%nat then esc "t"
        else if (n =? 8)%nat then esc "b"
        else if (n =? 12)%nat then esc "f"
        else if (n <? 32)%nat
             then (esc "u" ++ "00"
                   ++ String (hex_digit (n / 16))
                        (String (hex_digit (n mod 16)) EmptyString))%string
             else String c EmptyString)
         ++ escape s')%string
  end.

Definition encode_string (s : string) : string :=
  String quote (escape s ++ String quote EmptyString).

Fixpoint spaces (n : nat) : string :=
  match n with O => EmptyString | S n' => String " " (spaces n') end.

(** A newline and the indentation of nesting depth [level]. *)
Definition newline_indent (level : nat) : string :=
  String (ascii_of_nat 10) (spaces (2 * level)).

Fixpoint join_chunks (sep : string) (items : list (list string)) : list string :=
  match items with
  | [] => []
  | [item] => item
  | item :: items' => item ++ sep :: join_chunks sep items'
  end.

Fixpoint iterencode_at (level : nat) (v : json) : list string :=
  match v with
  | JNull => ["null"%string]
  | JBool b => [if b then "true"%string else "false"%string]
  | JNum q => [floatstr q]
  | JStr s => [encode_string s]
  | JArr xs =>
      match map (iterencode_at (S level)) xs with
      | [] => ["[]"%string]
      | items =>
          "["%string :: newline_indent (S level)
            :: join_chunks ("," ++ newline_indent (S level)) items
            ++ [newline_indent level; "]"%string]
      end
  | JObj d =>
      match map_to_list (iterencode_at (S level) <$> d) with
      | [] => ["{}"%string]
      | members =>
          "{"%string :: newline_indent (S level)
            :: join_chunks ("," ++ newline_indent (S level))
                 (map (fun kv => encode_string (fst kv) :: ": "%string :: snd kv)
                    members)
            ++ [newline_indent level; "}"%string]
      end
  end.

(** **** Decoding *)

Definition is_digit (c : ascii) : bool :=
  let n := nat_of_ascii c in ((48 <=? n) && (n <=? 57))%nat.

Definition digit_value (c : ascii) : Z := Z.of_nat (nat_of_ascii c) - 48.

Definition hex_value (c : ascii) : option nat :=
  let n := nat_of_ascii c in
  if ((48 <=? n) && (n <=? 57))%nat then Some (n - 48)%nat
  else if ((97 <=? n) && (n <=? 102))%nat then Some (n - 87)%nat
  else if ((65 <=? n) && (n <=? 70))%nat then Some (n - 55)%nat
  else None.

Fixpoint skip_ws (s : list ascii) : list ascii :=
  match s with
  | c :: s' =>
      let n := nat_of_ascii c in
      if ((n =? 32) || (n =? 10) || (n =? 13) || (n =? 9))%nat
      then skip_ws s' else s
  | [] => []
  end.

(** A run of digits: its value, its length, and the rest of the text. *)
Fixpoint parse_digits (s : list ascii) (acc : Z) (len : nat)
  : Z * nat * list ascii :=
  match s with
  | c :: s' =>
      if is_digit c
      then parse_digits s' (acc * 10 + digit_value c) (S len)
      else (acc, len, s)
  | [] => (acc, len, s)
  end.

Definition parse_number (s : list ascii) : option (Q * list ascii) :=
  let '(negative, s) :=
    match s with "-" :: s' => (true, s') | _ => (false, s) end in
  let '(int_part, int_len, s) := parse_digits s 0 0 in
  if (int_len =? 0)%nat then None
  else
    let '(num, den, s) :=
      match s with
      | "." :: s' =>
          let '(frac, frac_len, s'') := parse_digits s' 0 0 in
          (int_part * 10 ^ Z.of_nat frac_len + frac,
           (10 ^ Z.of_nat frac_len), s'')%Z
      | _ => (int_part, 1%Z, s)
      end in
    Some (Qred (Qmake (if negative then - num else num) (Z.to_pos den)), s).

Definition prepend (c : ascii) (r : option (string * list ascii))
  : option (string * list ascii) :=
  match r with
  | Some (str, rest) => Some (String c str, rest)
  | None => None
  end.

(** The text of a string after the opening quote, up to the closing one. *)
Fixpoint parse_string (s : list ascii) : option (string * list ascii) :=
  match s with
  | [] => None
  | c :: s' =>
      let n := nat_of_ascii c in
      if (n =? 34)%nat then Some (EmptyString, s')
      else if (n =? 92)%nat then
        match s' with
        | [] => None
        | e :: s'' =>
            let m := nat_of_ascii e in
            if (m =? 34)%nat then prepend quote (parse_string s'')
            else if (m =? 92)%nat then prepend backslash (parse_string s'')
            else if (m =? 47)%nat then prepend "/" (parse_string s'')
            else if (m =? 110)%nat then prepend (ascii_of_nat 10) (parse_string s'')
            else if (m =? 114)%nat then prepend (ascii_of_nat 13) (parse_string s'')
            else if (m =? 116)%nat then prepend (ascii_of_nat 9) (parse_string s'')
            else if (m =? 98)%nat then prepend (ascii_of_nat 8) (parse_string s'')
            else if (m =? 102)%nat then prepend (ascii_of_nat 12) (parse_string s'')
            else if (m =? 117)%nat then
              match s'' with
              | "0" :: "0" :: h1 :: h2 :: s3 =>
                  match hex_value h1, hex_value h2 with
                  | Some a, Some b =>
                      if (a <? 8)%nat
                      then prepend (ascii_of_nat (16 * a + b)) (parse_string s3)
                      else None
                  | _, _ => None
                  end
              | _ => None
              end
            else None
        end
      else if (n <? 32)%nat then None
      else prepend c (parse_string s')
  end.

Fixpoint parse_value (fuel : nat) (s : list ascii) : option (json * list ascii) :=
  match fuel with
  | O => None
  | S fuel' =>
      let value := parse_value fuel' in
      let fix elements (n : nat) (s : list ascii) (acc : list json) :=
        match n with
        | O => None
        | S n' =>
            match value s with
            | Some (v, r) =>
                match skip_ws r with
                | "," :: r' => elements n' r' (v :: acc)
                | "]" :: r' => Some (JArr (rev (v :: acc)), r')
                | _ => None
                end
            | None => None
            end
        end in
      let fix members (n : nat) (s : list ascii) (acc : gmap string json) :=
        match n with
        | O => None
        | S n' =>
            match skip_ws s with
            | c :: r =>
                match (if Ascii.eqb c quote then parse_string r else None) with
                | Some (key, r1) =>
                    match skip_ws r1 with
                    | ":" :: r2 =>
                        match value r2 with
                        | Some (v, r3) =>
                            match skip_ws r3 with
                            | "," :: r4 => members n' r4 (<[key := v]> acc)
                            | "}" :: r4 => Some (JObj (<[key := v]> acc), r4)
                            | _ => None
                            end
                        | None => None
                        end
                    | _ => None
                    end
                | None => None
                end
            | [] => None
            end
        end in
      match skip_ws s with
      | "n" :: "u" :: "l" :: "l" :: r => Some (JNull, r)
      | "t" :: "r" :: "u" :: "e" :: r => Some (JBool true, r)
      | "f" :: "a" :: "l" :: "s" :: "e" :: r => Some (JBool false, r)
      | "[" :: r =>
          match skip_ws r with
          | "]" :: r' => Some (JArr [], r')
          | _ => elements fuel' r []
          end
      | "{" :: r =>
          match skip_ws r with
          | "}" :: r' => Some (JObj ∅, r')
          | _ => members fuel' r ∅
          end
      | c :: r =>
          if Ascii.eqb c quote then
            match parse_string r with
            | Some (str, r') => Some (JStr str, r')
            | None => None
            end
          else
            match parse_number (c :: r) with
            | Some (q, r') => Some (JNum q, r')
            | None => None
            end
      | [] => None
      end
  end.

Definition decode (text : string) : result json :=
  let s := list_ascii_of_string text in
  match parse_value (S (length s)) s with
  | Some (v, r) =>
      match skip_ws r with
      | [] => Return v
      | _ => Raise JSONDecodeError
      end
  | None => Raise JSONDecodeError
  end.

#[export] Instance library : JsonLibrary :=
  {| iterencode := iterencode_at 0; loads := decode |}.

End MiniJson.

(** A record for the examples (18.7534 is 93767/5000 in lowest terms). *)
Definition granite : AnalysisRecord :=
  {| name := "Granite 7";
     timestamp := "2024-05-01T10:30:00";
     note := "first run";
     oxides_snapshot := scenario;
     result_weights :=
       list_to_map [ ("Quartz (Q)", 93767 # 5000); ("Albite (Ab)", 126141 # 5000) ]%Q
  |}.

(** *** Notions used to state the properties of the store *)

(** The file [open(SAVED_JSON, "w")] leaves behind when it succeeds. *)
Definition truncated (fs : filesystem) : file :=
  match fs !! SAVED_JSON with
  | None => File true true EmptyString
  | Some f => File (readable f) true EmptyString
  end.

(** The saved document is missing or may be opened for writing. *)
Definition can_write (fs : filesystem) : Prop :=
  match fs !! SAVED_JSON with
  | None => True
  | Some f => writable f = true
  end.

(** The saved document is missing or may be opened for reading. *)
Definition can_read (fs : filesystem) : Prop :=
  match fs !! SAVED_JSON with
  | None => True
  | Some f => readable f = true
  end.

(** The same record after its note was edited. *)
Definition granite_noted : AnalysisRecord :=
  {| name := name granite;
     timestamp := timestamp granite;
     note := "checked";
     oxides_snapshot := oxides_snapshot granite;
     result_weights := result_weights granite |}.

(** File systems for the examples: no saved document yet, a good one, one
    whose text is not JSON, one that cannot be read. *)
Definition fresh_fs : filesystem := ∅.

Definition granite_fs : filesystem :=
  {[ SAVED_JSON :=
       File true true
         (@dumps MiniJson.library (JObj {[ name granite := record_to_json granite ]})) ]}.

Definition corrupt_fs : filesystem :=
  {[ SAVED_JSON := File true true "{ not json" ]}.

Definition unreadable_fs : filesystem :=
  {[ SAVED_JSON := File false true "{}" ]}.

(** What atomicity of a write asks: at every moment the document another
    process finds is the one from before the write or the complete new
    one. *)
Definition atomic_write `{JsonLibrary} (d : gmap string json) (fs : filesystem)
  : Prop :=
  Forall (fun st => st !! SAVED_JSON = fs !! SAVED_JSON
                    \/ content <$> (st !! SAVED_JSON) = Some (dumps (JObj d)))
         (observable (write_saved_analyses_steps d) fs).

(** ** The page script: session state, reset, CSV upload, calculation

    The top-level code of the source that reads and writes
    [st.session_state] (lines 141-144 and 152-191) and
    [csv_template_bytes].  Streamlit is not code of this repository: what
    the user did in a run (a button clicked, a file uploaded and what
    [pd.read_csv] made of it, the clock) is an argument of the handler,
    [st.success] and [st.error] append to the list of messages shown, and
    [st.rerun()] halts the run by raising.  The rendering of the right
    column is not modelled. *)
Module App.

(** Exceptions on these paths.  [RerunException] is what [st.rerun()]
    raises to halt the script; it derives from [BaseException] only, the
    others derive from [Exception]. *)
Inductive exn : Type :=
| ValueError
| TypeError
| KeyError
| IndexError
| CalculatorError (e : Py.exn)
| ReadCsvError (text : string)
| RerunException.

Definition is_Exception (e : exn) : bool :=
  match e with
  | RerunException => false
  | _ => true
  end.

Inductive outcome (A : Type) : Type :=
| Done (a : A)
| Raised (e : exn).
Arguments Done {A} a.
Arguments Raised {A} e.

(** A row of [results_df] and the dictionary [last_meta]. *)
Record result_row : Type := {
  Mineral : string;
  Normative_wt : Q;
  Description : string
}.

Record run_meta : Type := {
  meta_name : string;
  meta_date : string;
  meta_note : string
}.

(** What the script stores in [st.session_state]. *)
Inductive value : Type :=
| VFloat (q : Q)
| VResults (df : list result_row)
| VMeta (m : run_meta).

(** What the script shows: [st.success(text)], [st.error(text)], and the
    two errors whose text is formatted from a value. *)
Inductive message : Type :=
| Success (text : string)
| Error (text : string)
| ErrorMissingColumns (missing : list string)
| ErrorFailedToRead (e : exn).

(** The state a handler works on. *)
Record ui : Type := UI {
  session_state : gmap string value;
  shown : list message
}.

(** A piece of the script: from a state to what it returns or raises,
    and the state it leaves.  What was written before an exception stays
    written. *)
Definition M (A : Type) : Type := ui -> outcome A * ui.

#[export] Instance M_ret : MRet M := fun A (a : A) (u : ui) => (Done a, u).

#[export] Instance M_bind : MBind M :=
  fun A B (k : A -> M B) (c : M A) (u : ui) =>
    match c u with
    | (Done a, u') => k a u'
    | (Raised e, u') => (Raised e, u')
    end.

Definition raise {A} (e : exn) : M A := fun u => (Raised e, u).

(** [try: body / except: handler] *)
Definition try_except {A} (body : M A) (handler : M A) : M A :=
  fun u =>
    match body u with
    | (Done a, u') => (Done a, u')
    | (Raised _, u') => handler u'
    end.

(** [try: body / except Exception as e: handler(e)] *)
Definition try_except_Exception {A} (body : M A) (handler : exn -> M A) : M A :=
  fun u =>
    match body u with
    | (Done a, u') => (Done a, u')
    | (Raised e, u') => if is_Exception e then handler e u' else (Raised e, u')
    end.

(** [for x in xs: body(x)] *)
Fixpoint for_each {A} (xs : list A) (body : A -> M unit) : M unit :=
  match xs with
  | [] => mret tt
  | x :: xs' => body x ;; for_each xs' body
  end.

(** [key in st.session_state] *)
Definition contains (key : string) : M bool :=
  fun u => (Done (match session_state u !! key with
                  | Some _ => true
                  | None => false
                  end), u).

(** [st.session_state[key]] *)
Definition getitem (key : string) : M value :=
  fun u => match session_state u !! key with
           | Some v => (Done v, u)
           | None => (Raised KeyError, u)
           end.

(** [st.session_state.get(key, default)] *)
Definition session_get (key : string) (default : value) : M value :=
  fun u => (Done (match session_state u !! key with
                  | Some v => v
                  | None => default
                  end), u).

(** [st.session_state[key] = v] *)
Definition setitem (key : string) (v : value) : M unit :=
  fun u => (Done tt, UI (<[key := v]> (session_state u)) (shown u)).

Definition show (m : message) : M unit :=
  fun u => (Done tt, UI (session_state u) (shown u ++ [m])).

Definition st_success (text : string) : M unit := show (Success text).
Definition st_error (text : string) : M unit := show (Error text).

(** [st.rerun()] *)
Definition st_rerun : M unit := raise RerunException.

(** [float(v)] on a value of the session. *)
Definition py_float (v : value) : M Q :=
  match v with
  | VFloat q => mret q
  | _ => raise TypeError
  end.

(** [f"oxide_{ox}"] *)
Definition oxide_key (ox : string) : string := "oxide_" ++ ox.

(** Lines 127-128; the template is ASCII, so its bytes are its
    characters. *)
Definition csv_template_bytes : string :=
  String.concat "," OXIDES ++ String (ascii_of_nat 10) EmptyString.

(** Lines 141-144. *)
Definition init_session_state : M unit :=
  for_each OXIDES (fun ox =>
    let key := oxide_key ox in
    present ← contains key;
    if negb present then setitem key (VFloat 0) else mret tt).

(** Lines 149-150; [number_input ox] is what [st.number_input] returned
    for the oxide [ox].  Its argument [value=float(st.session_state[...])]
    is evaluated first. *)
Definition render_inputs (number_input : string -> Q) : M unit :=
  for_each OXIDES (fun ox =>
    current ← getitem (oxide_key ox);
    _ ← py_float current;
    setitem (oxide_key ox) (VFloat (number_input ox))).

(** Lines 152-156; [clicked] is what [st.button] returned. *)
Definition reset_button (clicked : bool) : M unit :=
  if clicked then
    for_each OXIDES (fun ox => setitem (oxide_key ox) (VFloat 0));;
    st_success "All inputs reset to 0.0";;
    st_rerun
  else mret tt.

(** A cell of the uploaded table, by what [float] does on it: it returns
    [q], or it raises [ValueError]. *)
Inductive cell : Type :=
| Numeric (q : Q)
| NonNumeric.

(** What [pd.read_csv] returns: the column labels and the rows, each row
    giving a cell per label. *)
Record frame : Type := {
  columns : list string;
  rows : list (gmap string cell)
}.

(** [float(c)] on a cell. *)
Definition float_of_cell (c : cell) : M Q :=
  match c with
  | Numeric q => mret q
  | NonNumeric => raise ValueError
  end.

(** [row[label]] *)
Definition row_getitem (row : gmap string cell) (label : string) : M cell :=
  match row !! label with
  | Some c => mret c
  | None => raise KeyError
  end.

(** [df.iloc[i]] *)
Definition iloc (df : frame) (i : nat) : M (gmap string cell) :=
  match rows df !! i with
  | Some row => mret row
  | None => raise IndexError
  end.

(** Line 168: [[c for c in OXIDES if c not in df_csv.columns]] *)
Definition missing_columns (df : frame) : list string :=
  List.filter (fun c => negb (bool_decide (c ∈ columns df))) OXIDES.

(** Line 175, the body of the loop over the oxides. *)
Definition csv_cell_body (row : gmap string cell) (ox : string) : M unit :=
  c ← row_getitem row ox;
  v ← float_of_cell c;
  setitem (oxide_key ox) (VFloat v).

(** Lines 162-181.  [uploaded] is [None] when no file was uploaded, and
    otherwise what [pd.read_csv] did on the file: the frame it returned
    or the exception it raised. *)
Definition csv_upload (uploaded : option (outcome frame)) : M unit :=
  match uploaded with
  | None => mret tt
  | Some read_csv =>
      try_except_Exception
        (df_csv ← (match read_csv with
                   | Done df => mret df
                   | Raised e => raise e
                   end);
         if negb (length (rows df_csv) =? 1)%nat then
           st_error "CSV must contain exactly one row (one analysis)."
         else
           let missing := missing_columns df_csv in
           match missing with
           | _ :: _ => show (ErrorMissingColumns missing)
           | [] =>
               row ← iloc df_csv 0;
               try_except
                 (for_each OXIDES (csv_cell_body row);;
                  st_success "Values loaded from CSV successfully";;
                  st_rerun)
                 (st_error "CSV contains non-numeric value(s) in oxide columns.")
           end)
        (fun e => show (ErrorFailedToRead e))
  end.

(** Line 185: [{ox: float(st.session_state.get(f"oxide_{ox}", 0.0)) for ox
    in OXIDES}], the dictionary built so far being [acc]. *)
Fixpoint oxide_values (oxs : list string) (acc : gmap string Q)
  : M (gmap string Q) :=
  match oxs with
  | [] => mret acc
  | ox :: oxs' =>
      v ← session_get (oxide_key ox) (VFloat 0);
      q ← py_float v;
      oxide_values oxs' (<[ox := q]> acc)
  end.

(** Line 187: the rows of [results_df]. *)
Definition results_rows (minerals : list (string * Q))
    (descriptions : list (string * string)) : list result_row :=
  map (fun kv =>
         {| Mineral := fst kv;
            Normative_wt := snd kv;
            Description := default EmptyString (item descriptions (fst kv)) |})
      minerals.

(** Lines 184-191; [clicked] is what [st.button] returned, [stamp] and
    [iso] are [datetime.now().strftime('%Y%m%d_%H%M%S')] and
    [datetime.now().isoformat()]. *)
Definition calculate_button (clicked : bool) (stamp iso : string) : M unit :=
  if clicked then
    oxide_values ← oxide_values OXIDES ∅;
    result ← (match calculate_cipw oxide_values with
              | Return r => mret r
              | Raise e => raise (CalculatorError e)
              end);
    let minerals := fst result in
    let descriptions := snd result in
    let results_df := results_rows minerals descriptions in
    setitem "last_results_df" (VResults results_df);;
    setitem "last_meta"
      (VMeta {| meta_name := "Analysis_" ++ stamp;
                meta_date := iso;
                meta_note := EmptyString |});;
    st_success "Calculation done. See results on the right.";;
    st_rerun
  else mret tt.

(** What the user did in one run of the script, and the clock. *)
Record user_input : Type := {
  number_input : string -> Q;
  reset_clicked : bool;
  uploaded_csv : option (outcome frame);
  calculate_clicked : bool;
  clock_stamp : string;
  clock_iso : string
}.

(** Lines 141-191 in the order of the script, the display calls left
    out. *)
Definition script_run (i : user_input) : M unit :=
  init_session_state;;
  render_inputs (number_input i);;
  reset_button (reset_clicked i);;
  csv_upload (uploaded_csv i);;
  calculate_button (calculate_clicked i) (clock_stamp i) (clock_iso i).

End App.

(** *** Notions used to state the properties of the page script *)

(** The session entries of the oxides [oxs], each holding the float
    [f ox]. *)
Definition inputs_from (oxs : list string) (f : string -> Q)
  : gmap string App.value :=
  list_to_map (map (fun ox => (App.oxide_key ox, App.VFloat (f ox))) oxs).

Definition inputs_of (f : string -> Q) : gmap string App.value :=
  inputs_from OXIDES f.

(** The composition with the value [f ox] for each of the ten oxides. *)
Definition composition_of (f : string -> Q) : gmap string Q :=
  list_to_map (map (fun ox => (ox, f ox)) OXIDES).

(** Every oxide entry the session has holds a float. *)
Definition oxide_typed (ss : gmap string App.value) : Prop :=
  Forall (fun ox => match ss !! App.oxide_key ox with
                    | Some (App.VFloat _) | None => True
                    | Some _ => False
                    end) OXIDES.

(** The float of an oxide entry of the session, 0.0 when it is missing. *)
Definition session_value (ss : gmap string App.value) (ox : string) : Q :=
  match ss !! App.oxide_key ox with
  | Some (App.VFloat q) => q
  | _ => 0%Q
  end.

(** The number in the cell of a row under a label. *)
Definition row_value (row : gmap string App.cell) (label : string) : Q :=
  match row !! label with
  | Some (App.Numeric q) => q
  | _ => 0%Q
  end.

(** The cells of the row under the labels [oxs] are all numbers. *)
Definition numeric_cells (row : gmap string App.cell) (oxs : list string) : Prop :=
  Forall (fun ox => exists q, row !! ox = Some (App.Numeric q)) oxs.

(** The first line of a text, without its newline. *)
Fixpoint first_line (s : string) : string :=
  match s with
  | EmptyString => EmptyString
  | String c s' =>
      if Ascii.eqb c (ascii_of_nat 10) then EmptyString
      else String c (first_line s')
  end.

(** The fields of a line that are separated by [sep]: the column labels a
    CSV reader takes from a header line without quotes. *)
Fixpoint split_on (sep : ascii) (s : string) : list string :=
  match s with
  | EmptyString => [EmptyString]
  | String c s' =>
      if Ascii.eqb c sep then EmptyString :: split_on sep s'
      else match split_on sep s' with
           | field :: fields => String c field :: fields
           | [] => [String c EmptyString]
           end
  end.

(** Data for the examples: a new session, the table of the end-to-end
    composition, the same table with a text in the MgO cell, and what a
    user can do in a run. *)
Definition new_session : App.ui := App.UI ∅ [].

Definition scenario_row : gmap string App.cell := App.Numeric <$> scenario.

Definition scenario_frame : App.frame :=
  {| App.columns := OXIDES; App.rows := [scenario_row] |}.

Definition text_in_MgO_row : gmap string App.cell :=
  <["MgO" := App.NonNumeric]> scenario_row.

Definition text_in_MgO_frame : App.frame :=
  {| App.columns := OXIDES; App.rows := [text_in_MgO_row] |}.

Definition scenario_widgets (ox : string) : Q := get scenario ox.

Definition click_calculate : App.user_input :=
  {| App.number_input := scenario_widgets;
     App.reset_clicked := false;
     App.uploaded_csv := None;
     App.calculate_clicked := true;
     App.clock_stamp := "20240501_103000";
     App.clock_iso := "2024-05-01T10:30:00" |}.



(** *** Notions used to state further properties of the calculator *)


(** The two compositions give the same value to each of the ten oxides. *)
Definition same_oxides (oxides1 oxides2 : gmap string Q) : Prop :=
  Forall (fun ox => oxides1 !! ox = oxides2 !! ox) OXIDES.




(** * Properties *)

(** ** Facts about the Python fragment *)

Section PyFacts.
Local Open Scope Q_scope.

Lemma gt_true a b : Py.gt a b = true <-> b < a.
Proof.
  unfold Py.gt. rewrite negb_true_iff, <- not_true_iff_false, Qle_bool_iff.
  split; [apply Qnot_le_lt | apply Qlt_not_le].
Qed.

Lemma gt_false a b : Py.gt a b = false <-> a <= b.
Proof.
  unfold Py.gt. rewrite negb_false_iff. apply Qle_bool_iff.
Qed.

Lemma le_true a b : Py.le a b = true <-> a <= b.
Proof. apply Qle_bool_iff. Qed.

Lemma truediv_nonzero a b : ~ b == 0 -> truediv a b = Return (a / b).
Proof.
  intros Hb. unfold truediv.
  destruct (Qeq_bool b 0) eqn:E; [|reflexivity].
  apply Qeq_bool_iff in E. contradiction.
Qed.

Lemma max_spec a b : Py.max a b == Qmax a b.
Proof.
  unfold Py.max. destruct (Py.gt b a) eqn:E.
  - apply gt_true in E. symmetry. apply Q.max_r. apply Qlt_le_weak, E.
  - apply gt_false in E. symmetry. apply Q.max_l, E.
Qed.

Lemma max_lower a b : a <= Py.max a b.
Proof. rewrite max_spec. apply Q.le_max_l. Qed.

Lemma sum_from (xs : list Q) (a : Q) :
  fold_left Qplus xs a == a + Py.sum xs.
Proof.
  unfold Py.sum. revert a.
  induction xs as [|x xs IH]; intros a; simpl.
  - lra.
  - rewrite (IH (a + x)), (IH (0 + x)). lra.
Qed.

Lemma sum_cons (x : Q) (xs : list Q) : Py.sum (x :: xs) == x + Py.sum xs.
Proof. unfold Py.sum at 1. simpl. rewrite sum_from. lra. Qed.



(** Rounding to the nearest integer moves a number by at most 1/2. *)
Lemma round_half_even_error q :
  Qabs (inject_Z (round_half_even q) - q) <= 1 # 2.
Proof.
  unfold round_half_even.
  pose proof (Qfloor_le q) as Hlo. pose proof (Qlt_floor q) as Hhi.
  rewrite inject_Z_plus in Hhi. change (inject_Z 1) with 1 in Hhi.
  apply Qabs_Qle_condition.
  destruct (Qcompare_spec (q - inject_Z (Qfloor q)) (1 # 2)) as [E|E|E].
  - destruct (Z.even (Qfloor q));
      rewrite ?inject_Z_plus; change (inject_Z 1) with 1; lra.
  - lra.
  - rewrite inject_Z_plus. change (inject_Z 1) with 1. lra.
Qed.



Lemma round_4 x : Py.round x 4 = round_half_even (x * 10000) # 10000.
Proof. reflexivity. Qed.

(** [round(x, 4)] moves [x] by at most half a unit of the fourth decimal. *)
Lemma round_4_error x : Qabs (Py.round x 4 - x) <= 1 # 20000.
Proof.
  rewrite round_4.
  pose proof (round_half_even_error (x * 10000)) as H.
  apply Qabs_Qle_condition in H. apply Qabs_Qle_condition.
  set (n := round_half_even (x * 10000)) in *.
  assert (n # 10000 == inject_Z n * (1 # 10000)) as ->.
  { unfold Qeq, inject_Z. simpl. lia. }
  lra.
Qed.


End PyFacts.

(** ** Facts about the calculator *)

Section CalculatorFacts.
Local Open Scope Q_scope.

Lemma get_non_negative oxides k : non_negative oxides -> 0 <= get oxides k.
Proof.
  intros H. unfold get. destruct (oxides !! k) as [v|] eqn:E; simpl.
  - exact (H k v E).
  - lra.
Qed.

Lemma impute_FeO_fallback FeO Fe2O3 :
  FeO <= 0 -> 0 < Fe2O3 ->
  impute_FeO FeO Fe2O3 = Return (Fe2O3 * iron_factor).
Proof.
  intros H1 H2. unfold impute_FeO.
  apply le_true in H1. apply gt_true in H2. rewrite H1, H2. reflexivity.
Qed.

Lemma impute_FeO_given FeO Fe2O3 :
  ~ (FeO <= 0 /\ 0 < Fe2O3) -> impute_FeO FeO Fe2O3 = Return FeO.
Proof.
  intros H. unfold impute_FeO.
  destruct (Py.le FeO 0) eqn:E1; [|reflexivity].
  destruct (Py.gt Fe2O3 0) eqn:E2; [|reflexivity].
  apply le_true in E1. apply gt_true in E2. tauto.
Qed.

Lemma impute_FeO_cases FeO Fe2O3 :
  (FeO <= 0 /\ 0 < Fe2O3) \/ ~ (FeO <= 0 /\ 0 < Fe2O3).
Proof.
  destruct (Qlt_le_dec 0 FeO) as [H|H]; [right; lra|].
  destruct (Qlt_le_dec 0 Fe2O3) as [H'|H']; [left; tauto | right; lra].
Qed.

Lemma iron_factor_pos : 0 < iron_factor.
Proof. reflexivity. Qed.

Lemma impute_FeO_non_negative FeO Fe2O3 :
  0 <= FeO -> 0 <= Fe2O3 ->
  exists x, impute_FeO FeO Fe2O3 = Return x /\ 0 <= x.
Proof.
  intros H1 H2.
  destruct (impute_FeO_cases FeO Fe2O3) as [[Ha Hb]|Hn].
  - exists (Fe2O3 * iron_factor). split; [by apply impute_FeO_fallback|].
    pose proof iron_factor_pos. nra.
  - exists FeO. split; [by apply impute_FeO_given | done].
Qed.

Lemma raw_dict_non_negative SiO2 Al2O3 Fe2O3 FeO MgO CaO Na2O K2O TiO2 P2O5 :
  0 <= Fe2O3 -> 0 <= FeO -> 0 <= MgO -> 0 <= CaO -> 0 <= Na2O ->
  0 <= K2O -> 0 <= TiO2 -> 0 <= P2O5 ->
  Forall (fun v => 0 <= v)
    (Py.values (raw_dict SiO2 Al2O3 Fe2O3 FeO MgO CaO Na2O K2O TiO2 P2O5)).
Proof.
  intros. unfold raw_dict, Py.values. simpl.
  repeat constructor; try nra. apply max_lower.
Qed.

(** The comprehension of line 71, in its two cases. *)
Lemma comprehension_positive total raw :
  0 < total ->
  dict_comprehension (normalize_entry total) raw = Return (normalized total raw).
Proof.
  intros Ht. induction raw as [|[k v] raw IH]; [reflexivity|].
  simpl. rewrite IH. unfold normalize_entry.
  rewrite (proj2 (gt_true total 0) Ht).
  rewrite truediv_nonzero by lra. reflexivity.
Qed.

Lemma comprehension_not_positive total raw :
  total <= 0 ->
  dict_comprehension (normalize_entry total) raw = Return (zeroed raw).
Proof.
  intros Ht. induction raw as [|[k v] raw IH]; [reflexivity|].
  simpl. rewrite IH. unfold normalize_entry.
  rewrite (proj2 (gt_false total 0) Ht). reflexivity.
Qed.

Lemma keys_normalized total raw : Py.keys (normalized total raw) = Py.keys raw.
Proof. unfold Py.keys, normalized. rewrite map_map. reflexivity. Qed.

Lemma keys_zeroed raw : Py.keys (zeroed raw) = Py.keys raw.
Proof. unfold Py.keys, zeroed. rewrite map_map. reflexivity. Qed.

(** The percentages add up to 100 up to the rounding of each of them. *)
Lemma sum_normalized_error total raw :
  ~ total == 0 ->
  Qabs (Py.sum (Py.values (normalized total raw))
        - Py.sum (Py.values raw) / total * 100)
  <= inject_Z (Z.of_nat (length raw)) * (1 # 20000).
Proof.
  intros Ht. induction raw as [|[k v] raw IH].
  - simpl. unfold Py.sum. simpl.
    assert (0 - 0 / total * 100 == 0) as -> by (field; exact Ht).
    cbv. discriminate.
  - change (Py.values (normalized total ((k, v) :: raw)))
      with (percent_of total v :: Py.values (normalized total raw)).
    change (Py.values ((k, v) :: raw)) with (v :: Py.values raw).
    rewrite !sum_cons.
    change (length ((k, v) :: raw)) with (S (length raw)).
    rewrite Nat2Z.inj_succ, <- Z.add_1_r, inject_Z_plus.
    change (inject_Z 1) with 1.
    pose proof (round_4_error (v / total * 100)) as Hr.
    fold (percent_of total v) in Hr.
    apply Qabs_Qle_condition in Hr. apply Qabs_Qle_condition in IH.
    apply Qabs_Qle_condition.
    assert ((v + Py.sum (Py.values raw)) / total * 100
            == v / total * 100 + Py.sum (Py.values raw) / total * 100) as ->
      by (field; exact Ht).
    lra.
Qed.

End CalculatorFacts.

Section CalculatorResults.
Local Open Scope Q_scope.

Lemma raw_weights_returns oxides :
  exists FeO_used,
    impute_FeO (get oxides "FeO") (get oxides "Fe2O3") = Return FeO_used /\
    raw_weights oxides =
      Return (raw_dict (get oxides "SiO2") (get oxides "Al2O3")
                (get oxides "Fe2O3") FeO_used (get oxides "MgO")
                (get oxides "CaO") (get oxides "Na2O") (get oxides "K2O")
                (get oxides "TiO2") (get oxides "P2O5")).
Proof.
  unfold raw_weights.
  destruct (impute_FeO_cases (get oxides "FeO") (get oxides "Fe2O3"))
    as [[Ha Hb]|Hn].
  - eexists. split; [by apply impute_FeO_fallback|].
    by rewrite impute_FeO_fallback.
  - eexists. split; [by apply impute_FeO_given|].
    by rewrite impute_FeO_given.
Qed.

Lemma raw_weights_non_negative oxides :
  non_negative oxides ->
  exists raw, raw_weights oxides = Return raw /\
              Py.keys raw = MINERALS /\
              Forall (fun v => 0 <= v) (Py.values raw).
Proof.
  intros H. unfold raw_weights.
  destruct (impute_FeO_non_negative (get oxides "FeO") (get oxides "Fe2O3"))
    as (x & -> & Hx); try by apply get_non_negative.
  eexists. split; [reflexivity|]. split; [reflexivity|].
  apply raw_dict_non_negative; try done; by apply get_non_negative.
Qed.

Lemma calculate_cipw_unfold oxides raw :
  raw_weights oxides = Return raw ->
  calculate_cipw oxides =
    (minerals ← dict_comprehension
                  (normalize_entry (Py.sum (Py.values raw))) raw;
     Return (minerals, descriptions)).
Proof. intros H. unfold calculate_cipw. rewrite H. reflexivity. Qed.


Lemma get_with_defaults oxides k : get (with_defaults oxides) k = get oxides k.
Proof.
  unfold get, with_defaults. rewrite lookup_union.
  destruct (oxides !! k) as [v|] eqn:E; simpl.
  - by destruct (zero_composition !! k).
  - destruct (zero_composition !! k) as [z|] eqn:Ez; [|done]. simpl.
    apply elem_of_list_to_map_2 in Ez. simpl in Ez.
    repeat (apply elem_of_cons in Ez as [Ez|Ez]; [by inversion Ez|]).
    by apply elem_of_nil in Ez.
Qed.

End CalculatorResults.

Section CalculatorClaims.
Local Open Scope Q_scope.

Lemma non_negative_check oxides :
  forallb (fun kv => Qle_bool 0 (snd kv)) (map_to_list oxides) = true ->
  non_negative oxides.
Proof.
  intros H k v Hk. rewrite forallb_forall in H.
  apply Qle_bool_iff.
  apply (H (k, v)), list_elem_of_In, elem_of_map_to_list, Hk.
Qed.

Lemma length_raw (raw : list (string * Q)) :
  Py.keys raw = MINERALS -> length raw = 9%nat.
Proof.
  intros H. apply (f_equal (@length string)) in H.
  unfold Py.keys in H. rewrite length_map in H. exact H.
Qed.





(** C9.  Whatever the input, the call returns; the mineral dictionary has
    the nine mineral names as its keys, in the order of [MINERALS]; the
    description dictionary is the constant [descriptions], whose keys are
    the same nine names in the same order. *)
Theorem calculate_cipw_keys (oxides : gmap string Q) :
  exists minerals,
    calculate_cipw oxides = Return (minerals, descriptions) /\
    Py.keys minerals = MINERALS /\
    Py.keys descriptions = MINERALS /\
    length MINERALS = 9%nat /\ NoDup MINERALS.
Proof.
  destruct (raw_weights_returns oxides) as (x & _ & Hraw).
  rewrite (calculate_cipw_unfold oxides _ Hraw).
  match goal with |- context [normalize_entry ?t] => set (total := t) end.
  assert (NoDup MINERALS) as Hnd.
  { apply NoDup_ListNoDup. unfold MINERALS.
    repeat (constructor; [simpl; intuition discriminate|]). constructor. }
  destruct (Qlt_le_dec 0 total) as [Hpos|Hle].
  - exists (normalized total
              (raw_dict (get oxides "SiO2") (get oxides "Al2O3")
                 (get oxides "Fe2O3") x (get oxides "MgO")
                 (get oxides "CaO") (get oxides "Na2O") (get oxides "K2O")
                 (get oxides "TiO2") (get oxides "P2O5"))).
    rewrite comprehension_positive by exact Hpos.
    rewrite keys_normalized. repeat split; done.
  - exists (zeroed
              (raw_dict (get oxides "SiO2") (get oxides "Al2O3")
                 (get oxides "Fe2O3") x (get oxides "MgO")
                 (get oxides "CaO") (get oxides "Na2O") (get oxides "K2O")
                 (get oxides "TiO2") (get oxides "P2O5"))).
    rewrite comprehension_not_positive by exact Hle.
    rewrite keys_zeroed. repeat split; done.
Qed.

(** C8.  A key missing from the input counts as 0.0: the result on
    [oxides] is the result on [with_defaults oxides], the composition in
    which each of the ten oxide symbols is present, with the value
    [oxides] gives it or else 0.0. *)
Theorem calculate_cipw_missing_keys (oxides : gmap string Q) :
  calculate_cipw oxides = calculate_cipw (with_defaults oxides) /\
  Forall (fun ox =>
            with_defaults oxides !! ox = Some (default 0 (oxides !! ox)))
         OXIDES.
Proof.
  split.
  - unfold calculate_cipw, raw_weights.
    by rewrite !get_with_defaults.
  - unfold with_defaults.
    repeat (constructor;
            [rewrite lookup_union; by destruct (oxides !! _)|]).
    constructor.
Qed.

(** C3, the example as the specification words it: on
    [{Fe2O3: 10, FeO: 0}] the imputed FeO is not 9.0007 to any of the
    digits after the second decimal; it is more than 0.0027 away. *)
Lemma iron_example_is_not_9_0007 :
  exists x,
    impute_FeO (get iron_example "FeO") (get iron_example "Fe2O3") = Return x /\
    (27 # 10000) < Qabs (x - (90007 # 10000)).
Proof. eexists. split; [vm_compute; reflexivity | reflexivity]. Qed.

(** C3, amended.  When FeO is not positive (zero, negative or missing)
    and Fe2O3 is positive, the raw weights are computed with
    [FeO = Fe2O3 * (2 * 71.844 / 159.69)]; otherwise with FeO as given.
    FeO enters the Olivine weight only, and the Magnetite weight uses the
    Fe2O3 of the input.  On [{Fe2O3: 10, FeO: 0}] the imputed FeO is
    8.9979 to four decimals. *)
Theorem iron_fallback (oxides : gmap string Q) :
  let FeO := get oxides "FeO" in
  let Fe2O3 := get oxides "Fe2O3" in
  (exists FeO_used raw,
     (FeO <= 0 /\ 0 < Fe2O3 /\
      FeO_used = Fe2O3 * ((2 * (71844 # 1000)) / (15969 # 100))
      \/ ~ (FeO <= 0 /\ 0 < Fe2O3) /\ FeO_used = FeO) /\
     raw_weights oxides = Return raw /\
     raw = raw_dict (get oxides "SiO2") (get oxides "Al2O3")
             Fe2O3 FeO_used (get oxides "MgO") (get oxides "CaO")
             (get oxides "Na2O") (get oxides "K2O") (get oxides "TiO2")
             (get oxides "P2O5") /\
     item raw "Olivine (Ol)" = Some ((get oxides "MgO" + FeO_used) * (9 # 10)) /\
     item raw "Magnetite (Mt)" = Some (Fe2O3 * (143 # 100)))
  /\
  (exists x,
     impute_FeO (get iron_example "FeO") (get iron_example "Fe2O3") = Return x /\
     Qabs (x - (89979 # 10000)) <= 1 # 20000).
Proof.
  intros FeO Fe2O3. split.
  - destruct (raw_weights_returns oxides) as (x & Hx & Hraw).
    exists x. eexists. split; [|split; [exact Hraw|]].
    + fold FeO Fe2O3 in Hx.
      destruct (impute_FeO_cases FeO Fe2O3) as [[Ha Hb]|Hn].
      * left. rewrite impute_FeO_fallback in Hx by assumption.
        inversion Hx. repeat split; done.
      * right. rewrite impute_FeO_given in Hx by assumption.
        inversion Hx. split; done.
    + repeat split; reflexivity.
  - eexists. split; [vm_compute; reflexivity | vm_compute; discriminate].
Qed.

(** C4.  The raw Quartz weight is [max(0, SiO2 - (2*Al2O3 + CaO + MgO))];
    the other eight raw weights are the plain products of the table, with
    no clipping (a negative K2O gives a negative Orthoclase weight); for
    non-negative inputs none of the nine is negative; and
    [{SiO2: 40, Al2O3: 30, CaO: 10, MgO: 5}] gives raw Quartz 0. *)
Theorem raw_quartz_clipped (oxides : gmap string Q) :
  (exists quartz FeO_used,
     raw_weights oxides =
       Return [ ("Quartz (Q)", quartz);
                ("Orthoclase (Or)", get oxides "K2O" * (658 # 100));
                ("Albite (Ab)", get oxides "Na2O" * (852 # 100));
                ("Anorthite (An)", get oxides "CaO" * (235 # 100));
                ("Diopside (Di)",
                  (get oxides "CaO" + get oxides "MgO") * (11 # 10));
                ("Olivine (Ol)", (get oxides "MgO" + FeO_used) * (9 # 10));
                ("Magnetite (Mt)", get oxides "Fe2O3" * (143 # 100));
                ("Ilmenite (Il)", get oxides "TiO2" * (189 # 100));
                ("Apatite (Ap)", get oxides "P2O5" * (333 # 100)) ] /\
     quartz == Qmax 0 (get oxides "SiO2"
                       - (2 * get oxides "Al2O3" + get oxides "CaO"
                          + get oxides "MgO")) /\
     0 <= quartz)
  /\ (non_negative oxides ->
      exists raw, raw_weights oxides = Return raw /\
                  Forall (fun v => 0 <= v) (Py.values raw))
  /\ (exists raw, raw_weights quartz_example = Return raw /\
                  item raw "Quartz (Q)" = Some 0)
  /\ (exists raw v, raw_weights {[ "K2O" := -1 ]} = Return raw /\
                    item raw "Orthoclase (Or)" = Some v /\ v < 0).
Proof.
  split; [|split; [|split]].
  - destruct (raw_weights_returns oxides) as (x & _ & Hraw).
    eexists. exists x. split; [exact Hraw|]. split.
    + rewrite max_spec.
      apply Q.max_compat; [reflexivity | ring].
    + apply max_lower.
  - intros Hnn.
    destruct (raw_weights_non_negative oxides Hnn) as (raw & Hraw & _ & Hv).
    by exists raw.
  - eexists. split; [vm_compute; reflexivity | reflexivity].
  - eexists. eexists. split; [vm_compute; reflexivity|].
    split; reflexivity.
Qed.

Lemma raw_quartz_clipped_witness :
  exists raw, raw_weights scenario = Return raw /\
              Forall (fun v => 0 <= v) (Py.values raw).
Proof.
  destruct (raw_quartz_clipped scenario) as (_ & Hnn & _).
  apply Hnn, non_negative_check. vm_compute. reflexivity.
Defined.

End CalculatorClaims.

(** Worked examples: the end-to-end composition of the specification and
    the empty composition. *)
Example calculate_cipw_scenario :
  calculate_cipw scenario =
    Return ([ ("Quartz (Q)", 187534 # 10000);
              ("Orthoclase (Or)", 129892 # 10000);
              ("Albite (Ab)", 252282 # 10000);
              ("Anorthite (An)", 162365 # 10000);
              ("Diopside (Di)", 119430 # 10000);
              ("Olivine (Ol)", 71065 # 10000);
              ("Magnetite (Mt)", 42343 # 10000);
              ("Ilmenite (Il)", 18655 # 10000);
              ("Apatite (Ap)", 16434 # 10000) ]%Q, descriptions).
Proof. vm_compute. reflexivity. Qed.

Example calculate_cipw_all_zero :
  calculate_cipw ∅ = Return (map (fun k => (k, 0%Q)) MINERALS, descriptions).
Proof. vm_compute. reflexivity. Qed.

(** ** Facts about the store *)

Section StringFacts.

Lemma append_nil_r (s : string) : s ++ EmptyString = s.
Proof.
  induction s as [|c s IH]; [reflexivity|].
  change (String c (s ++ EmptyString) = String c s). by rewrite IH.
Qed.

Lemma append_assoc (s1 s2 s3 : string) : (s1 ++ s2) ++ s3 = s1 ++ (s2 ++ s3).
Proof.
  induction s1 as [|c s1 IH]; [reflexivity|].
  change (String c ((s1 ++ s2) ++ s3) = String c (s1 ++ (s2 ++ s3))).
  by rewrite IH.
Qed.

Lemma concat_cons (c : string) (cs : list string) :
  String.concat EmptyString (c :: cs) = c ++ String.concat EmptyString cs.
Proof.
  destruct cs as [|c' cs]; [symmetry; apply append_nil_r | reflexivity].
Qed.

End StringFacts.

Section StoreFacts.
Context `{JsonLibrary}.

Lemma file_eta (f : file) : File (readable f) (writable f) (content f) = f.
Proof. by destruct f. Qed.

(** The writes of the chunks and the close, on a file that is there. *)
Lemma exec_writes path (chunks : list string) :
  forall (fs : filesystem) (f : file),
    fs !! path = Some f ->
    exec (map (Write path) chunks ++ [Close path]) fs =
      Return (<[path := File (readable f) (writable f)
                          (content f ++ String.concat EmptyString chunks)]> fs).
Proof.
  induction chunks as [|c cs IH]; intros fs f Hf.
  - simpl. rewrite append_nil_r, file_eta. by rewrite insert_id.
  - rewrite concat_cons.
    change (exec (map (Write path) (c :: cs) ++ [Close path]) fs)
      with (fs' ← step (Write path c) fs;
            exec (map (Write path) cs ++ [Close path]) fs').
    simpl. rewrite Hf. simpl.
    change (Py.bind (Return ?a) ?k) with (k a). cbv beta.
    erewrite IH by apply lookup_insert_eq. simpl.
    by rewrite insert_insert_eq, append_assoc.
Qed.

Lemma observable_writes path (chunks : list string) :
  forall (fs : filesystem) (f : file),
    fs !! path = Some f ->
    Forall (fun st => exists k,
              st = <[path := File (readable f) (writable f)
                               (content f ++ String.concat EmptyString
                                               (firstn k chunks))]> fs)
           (observable (map (Write path) chunks ++ [Close path]) fs).
Proof.
  induction chunks as [|c cs IH]; intros fs f Hf.
  - simpl. constructor; [|constructor].
    exists 0%nat. simpl. rewrite append_nil_r, file_eta. by rewrite insert_id.
  - simpl. rewrite Hf. constructor.
    + exists 1%nat. simpl. by destruct cs.
    + specialize (IH _ _ (lookup_insert_eq fs path
                            (File (readable f) (writable f) (content f ++ c)))).
      eapply List.Forall_impl; [|exact IH]. simpl.
      intros st [k ->]. exists (S k).
      rewrite insert_insert_eq. change (firstn (S k) (c :: cs)) with (c :: firstn k cs).
      by rewrite concat_cons, append_assoc.
Qed.

Lemma step_open (fs : filesystem) :
  can_write fs ->
  step (OpenTruncate SAVED_JSON) fs = Return (<[SAVED_JSON := truncated fs]> fs).
Proof.
  unfold can_write, truncated, step.
  destruct (fs !! SAVED_JSON) as [f|]; [|done]. by intros ->.
Qed.

Lemma write_saved_analyses_effect (d : gmap string json) (fs : filesystem) :
  can_write fs ->
  write_saved_analyses d fs =
    Return (<[SAVED_JSON := File (readable (truncated fs)) true (dumps (JObj d))]> fs).
Proof.
  intros Hw. unfold write_saved_analyses, write_saved_analyses_steps.
  change (exec (?op :: ?ops) fs) with (fs' ← step op fs; exec ops fs').
  rewrite (step_open fs Hw).
  change (Return ?a ≫= ?k) with (k a). cbv beta.
  erewrite exec_writes by apply lookup_insert_eq.
  rewrite insert_insert_eq. unfold dumps.
  by destruct (fs !! SAVED_JSON) eqn:E; unfold truncated; rewrite E.
Qed.

Lemma write_saved_analyses_refused (d : gmap string json) (fs : filesystem) f :
  fs !! SAVED_JSON = Some f -> writable f = false ->
  write_saved_analyses d fs = Raise PermissionError /\
  observable (write_saved_analyses_steps d) fs = [].
Proof.
  intros Hf Hw. unfold write_saved_analyses, write_saved_analyses_steps.
  simpl. by rewrite Hf, Hw.
Qed.

(** What [load_saved_analyses] returns, in every case. *)
Lemma load_saved_analyses_cases (fs : filesystem) :
  load_saved_analyses fs =
    Return (match fs !! SAVED_JSON with
            | None => ∅
            | Some f =>
                if readable f then
                  match loads (content f) with
                  | Return (JObj d) => d
                  | _ => ∅
                  end
                else ∅
            end).
Proof.
  unfold load_saved_analyses, os_path_exists, read_text.
  destruct (fs !! SAVED_JSON) as [f|]; simpl; [|reflexivity].
  destruct (readable f); simpl; [|reflexivity].
  destruct (loads (content f)) as [v|e]; simpl; [|reflexivity].
  by destruct v.
Qed.

(** Reading back what [write_saved_analyses] wrote. *)
Lemma load_after_write (d : gmap string json) (fs fs' : filesystem) :
  can_read fs ->
  loads (dumps (JObj d)) = Return (JObj d) ->
  write_saved_analyses d fs = Return fs' ->
  load_saved_analyses fs' = Return d.
Proof.
  intros Hr Hrt Hwrite.
  assert (can_write fs) as Hw.
  { unfold can_write. destruct (fs !! SAVED_JSON) as [f|] eqn:E; [|done].
    destruct (writable f) eqn:Ew; [done|].
    destruct (write_saved_analyses_refused d fs f E Ew) as [Hx _]. congruence. }
  rewrite (write_saved_analyses_effect d fs Hw) in Hwrite.
  inversion Hwrite as [Hfs']. clear Hwrite.
  rewrite load_saved_analyses_cases, lookup_insert_eq. simpl.
  assert (readable (truncated fs) = true) as ->.
  { unfold truncated, can_read in *. by destruct (fs !! SAVED_JSON). }
  by rewrite Hrt.
Qed.

End StoreFacts.

(** ** The claims about the store *)

Section StoreClaims.
Context `{JsonLibrary}.

(** C5.  [load_all] always returns, never raises; and it returns the
    empty mapping when the saved document is absent, when it cannot be
    read, when its text is not well-formed JSON, and when the text is
    JSON but not an object. *)
Theorem load_all_fail_soft (fs : filesystem) :
  (exists d, AnalysisStore.load_all fs = Return d)
  /\ (fs !! SAVED_JSON = None -> AnalysisStore.load_all fs = Return ∅)
  /\ (forall f, fs !! SAVED_JSON = Some f -> readable f = false ->
                AnalysisStore.load_all fs = Return ∅)
  /\ (forall f e, fs !! SAVED_JSON = Some f -> loads (content f) = Raise e ->
                  AnalysisStore.load_all fs = Return ∅)
  /\ (forall f v, fs !! SAVED_JSON = Some f -> loads (content f) = Return v ->
                  (forall d, v <> JObj d) ->
                  AnalysisStore.load_all fs = Return ∅).
Proof.
  unfold AnalysisStore.load_all. rewrite load_saved_analyses_cases.
  split; [eauto|]. split; [by intros ->|].
  split; [by intros f -> ->|].
  split.
  - intros f e -> ->. by destruct (readable f).
  - intros f v -> -> Hv. destruct (readable f); [|done].
    destruct v; try done. by destruct (Hv d).
Qed.

(** C2, amended.  When the saved document may be opened for writing,
    [write_saved_analyses] works on the document itself and on no other
    path: it opens it, which empties it at once, appends the chunks of
    the serialised mapping one after the other, and closes it.  While it
    runs the document holds the first chunks of the new text only; when
    it has returned the document holds the whole new text. *)
Theorem write_saved_analyses_in_place (d : gmap string json) (fs : filesystem) :
  can_write fs ->
  Forall (fun op => syscall_path op = SAVED_JSON) (write_saved_analyses_steps d)
  /\ (exists opened rest,
        observable (write_saved_analyses_steps d) fs = opened :: rest /\
        content <$> (opened !! SAVED_JSON) = Some EmptyString /\
        Forall (fun st => exists k,
                  content <$> (st !! SAVED_JSON) =
                    Some (String.concat EmptyString
                            (firstn k (iterencode (JObj d)))))
               rest)
  /\ (exists fs',
        write_saved_analyses d fs = Return fs' /\
        content <$> (fs' !! SAVED_JSON) = Some (dumps (JObj d))).
Proof.
  intros Hw. split; [|split].
  - unfold write_saved_analyses_steps. constructor; [reflexivity|].
    apply List.Forall_app. split; [|by repeat constructor].
    apply List.Forall_map, List.Forall_forall. reflexivity.
  - unfold write_saved_analyses_steps.
    change (observable (?op :: ?ops) fs)
      with (match step op fs with
            | Return fs' => fs' :: observable ops fs'
            | Raise _ => []
            end).
    rewrite (step_open fs Hw).
    eexists. eexists. split; [reflexivity|].
    split.
    + rewrite lookup_insert_eq. simpl.
      unfold truncated. by destruct (fs !! SAVED_JSON).
    + eapply List.Forall_impl;
        [|apply (observable_writes SAVED_JSON _ _ (truncated fs)),
            lookup_insert_eq].
      simpl. intros st [k ->]. exists k.
      rewrite lookup_insert_eq. simpl.
      unfold truncated. by destruct (fs !! SAVED_JSON).
  - rewrite (write_saved_analyses_effect d fs Hw).
    eexists. split; [reflexivity|]. by rewrite lookup_insert_eq.
Qed.

(** C6.  When the saved document can be read, the json library reads
    back the document that is written, and [save record] returns, then
    [load_all] returns the former mapping with [record] under its name:
    the entry for [record.name] is the saved record, field by field. *)
Theorem save_then_load_all (r : AnalysisRecord) (fs fs' : filesystem)
    (d : gmap string json) :
  AnalysisStore.load_all fs = Return d ->
  can_read fs ->
  loads (dumps (JObj (<[name r := record_to_json r]> d)))
    = Return (JObj (<[name r := record_to_json r]> d)) ->
  AnalysisStore.save r fs = Return fs' ->
  exists d',
    AnalysisStore.load_all fs' = Return d' /\
    d' !! name r = Some (record_to_json r) /\
    d' = <[name r := record_to_json r]> d.
Proof.
  unfold AnalysisStore.load_all, AnalysisStore.save.
  intros Hd Hr Hrt Hsave. rewrite Hd in Hsave.
  change (Return ?a ≫= ?k) with (k a) in Hsave. cbv beta in Hsave.
  exists (<[name r := record_to_json r]> d).
  split; [|split; [apply lookup_insert_eq | reflexivity]].
  by apply (load_after_write _ fs fs').
Qed.


End StoreClaims.

Import MiniJson.

Section StoreExamples.

(** C2, as the specification words it: rewriting the saved document with
    an edited note, another process can find the document empty, which
    is neither the former document nor the new one. *)
Lemma write_saved_analyses_not_atomic :
  ~ atomic_write {[ name granite_noted := record_to_json granite_noted ]}
      granite_fs.
Proof.
  unfold atomic_write, write_saved_analyses_steps. intros HF.
  change (observable (?op :: ?ops) granite_fs)
    with (match step op granite_fs with
          | Return fs' => fs' :: observable ops fs'
          | Raise _ => []
          end) in HF.
  rewrite (step_open granite_fs) in HF by reflexivity.
  apply List.Forall_inv in HF. rewrite lookup_insert_eq in HF.
  destruct HF as [E|E]; vm_compute in E; discriminate E.
Qed.

Lemma write_saved_analyses_in_place_witness :
  exists fs',
    write_saved_analyses
      {[ name granite_noted := record_to_json granite_noted ]} granite_fs
      = Return fs' /\
    content <$> (fs' !! SAVED_JSON)
      = Some (dumps (JObj {[ name granite_noted := record_to_json granite_noted ]})).
Proof.
  apply (write_saved_analyses_in_place _ granite_fs).
  vm_compute. reflexivity.
Defined.

Lemma load_all_fail_soft_witness :
  AnalysisStore.load_all fresh_fs = Return ∅
  /\ AnalysisStore.load_all unreadable_fs = Return ∅
  /\ AnalysisStore.load_all corrupt_fs = Return ∅.
Proof.
  split; [|split].
  - apply (load_all_fail_soft fresh_fs). reflexivity.
  - apply (proj1 (proj2 (proj2 (load_all_fail_soft unreadable_fs)))
             (File false true "{}")); reflexivity.
  - apply (proj1 (proj2 (proj2 (proj2 (load_all_fail_soft corrupt_fs))))
             (File true true "{ not json") JSONDecodeError);
      vm_compute; reflexivity.
Defined.

Lemma save_then_load_all_witness :
  exists d',
    AnalysisStore.load_all granite_fs = Return d' /\
    d' !! name granite = Some (record_to_json granite) /\
    d' = <[name granite := record_to_json granite]> ∅.
Proof.
  apply (save_then_load_all granite fresh_fs granite_fs ∅).
  - reflexivity.
  - exact I.
  - vm_compute. reflexivity.
  - vm_compute. reflexivity.
Defined.


End StoreExamples.

(** * Further properties *)

(** ** The calculator *)

Section CalculatorExtras.
Local Open Scope Q_scope.

Lemma round_half_even_comp q q' : q == q' -> round_half_even q = round_half_even q'.
Proof.
  intros E. unfold round_half_even.
  rewrite (Qfloor_comp _ _ E).
  assert (q - inject_Z (Qfloor q') == q' - inject_Z (Qfloor q')) as E'
    by (rewrite E; reflexivity).
  by rewrite (Qcompare_comp _ _ E' (1 # 2) (1 # 2) (Qeq_refl _)).
Qed.

Lemma round_comp x x' n : x == x' -> Py.round x n = Py.round x' n.
Proof.
  intros E. unfold Py.round. f_equal.
  apply round_half_even_comp. by rewrite E.
Qed.

Lemma gt_comp a a' b b' : a == a' -> b == b' -> Py.gt a b = Py.gt a' b'.
Proof.
  intros Ea Eb. unfold Py.gt. f_equal.
  destruct (Qle_bool a b) eqn:E1, (Qle_bool a' b') eqn:E2; try reflexivity.
  - apply Qle_bool_iff in E1. rewrite Ea, Eb in E1.
    apply Qle_bool_iff in E1. congruence.
  - apply Qle_bool_iff in E2. rewrite <- Ea, <- Eb in E2.
    apply Qle_bool_iff in E2. congruence.
Qed.

Lemma percent_of_zero total : percent_of total 0 == 0.
Proof.
  unfold percent_of.
  rewrite (round_comp (0 / total * 100) 0) by (unfold Qdiv; ring).
  reflexivity.
Qed.



(** The result of the call, for any input. *)
Lemma calculate_cipw_cases oxides :
  exists raw,
    raw_weights oxides = Return raw /\ Py.keys raw = MINERALS /\
    (0 < Py.sum (Py.values raw) /\
     calculate_cipw oxides
       = Return (normalized (Py.sum (Py.values raw)) raw, descriptions)
     \/ Py.sum (Py.values raw) <= 0 /\
        calculate_cipw oxides = Return (zeroed raw, descriptions)).
Proof.
  destruct (raw_weights_returns oxides) as (x & _ & Hraw).
  eexists. split; [exact Hraw|]. split; [reflexivity|].
  rewrite (calculate_cipw_unfold oxides _ Hraw).
  match goal with |- context [normalize_entry ?t] => set (total := t) end.
  destruct (Qlt_le_dec 0 total) as [Hpos|Hle].
  - left. split; [exact Hpos|]. by rewrite comprehension_positive.
  - right. split; [exact Hle|]. by rewrite comprehension_not_positive.
Qed.


Lemma raw_quartz_zero S A C M :
  S <= 2 * A + C + M -> Py.max 0 (S - (A * 2 + C + M)) = 0.
Proof.
  intros Hle. unfold Py.max.
  assert (Py.gt (S - (A * 2 + C + M)) 0 = false) as -> by (apply gt_false; lra).
  reflexivity.
Qed.

(** X2.  When silica does not exceed [2*Al2O3 + CaO + MgO], the weight
    returned for Quartz is 0, whatever the other values are. *)
Theorem quartz_absent_without_excess_silica (oxides : gmap string Q) :
  get oxides "SiO2"
    <= 2 * get oxides "Al2O3" + get oxides "CaO" + get oxides "MgO" ->
  exists minerals q,
    calculate_cipw oxides = Return (minerals, descriptions) /\
    item minerals "Quartz (Q)" = Some q /\ q == 0.
Proof.
  intros Hle.
  destruct (raw_weights_returns oxides) as (x & _ & Hraw).
  unfold raw_dict in Hraw. rewrite (raw_quartz_zero _ _ _ _ Hle) in Hraw.
  rewrite (calculate_cipw_unfold oxides _ Hraw).
  match goal with |- context [normalize_entry ?t] => set (total := t) end.
  destruct (Qlt_le_dec 0 total) as [Hpos|Hneg].
  - rewrite comprehension_positive by exact Hpos.
    eexists. exists (percent_of total 0).
    split; [reflexivity|]. split; [reflexivity|]. apply percent_of_zero.
  - rewrite comprehension_not_positive by exact Hneg.
    eexists. exists 0. split; [reflexivity|]. split; reflexivity.
Qed.

Lemma quartz_absent_without_excess_silica_witness :
  exists minerals q,
    calculate_cipw quartz_example = Return (minerals, descriptions) /\
    item minerals "Quartz (Q)" = Some q /\ q == 0.
Proof.
  apply (quartz_absent_without_excess_silica quartz_example).
  vm_compute. discriminate.
Defined.



Lemma get_insert_eq oxides k v : get (<[k := v]> oxides) k = v.
Proof. unfold get. by rewrite lookup_insert_eq. Qed.

Lemma get_insert_ne oxides k k' v :
  k <> k' -> get (<[k := v]> oxides) k' = get oxides k'.
Proof. intros Hne. unfold get. by rewrite lookup_insert_ne. Qed.

(** X4.  The iron fallback amounts to entering the imputed FeO by hand:
    when FeO is not positive and Fe2O3 is positive, the result is the one
    of the same composition with FeO set to
    [Fe2O3 * (2 * MW_FEO / MW_FE2O3)]. *)
Theorem imputed_FeO_entered_explicitly (oxides : gmap string Q) :
  get oxides "FeO" <= 0 -> 0 < get oxides "Fe2O3" ->
  calculate_cipw
    (<["FeO" := get oxides "Fe2O3" * ((2 * MW_FEO) / MW_FE2O3)]> oxides)
  = calculate_cipw oxides.
Proof.
  intros HFe HFe3. unfold calculate_cipw, raw_weights.
  rewrite get_insert_eq, !get_insert_ne by discriminate.
  rewrite (impute_FeO_fallback _ _ HFe HFe3).
  rewrite impute_FeO_given; [reflexivity|].
  pose proof iron_factor_pos. unfold iron_factor in *.
  intros [Hle _].
  assert (0 < get oxides "Fe2O3" * (2 * MW_FEO / MW_FE2O3)) by nra.
  lra.
Qed.

Lemma imputed_FeO_entered_explicitly_witness :
  calculate_cipw
    (<["FeO" := get iron_example "Fe2O3" * ((2 * MW_FEO) / MW_FE2O3)]>
       iron_example)
  = calculate_cipw iron_example.
Proof.
  apply (imputed_FeO_entered_explicitly iron_example).
  - vm_compute. discriminate.
  - reflexivity.
Defined.










End CalculatorExtras.

(** ** The two persistence functions *)

Section StoreExtras.
Context `{JsonLibrary}.

(** X6.  Writing a mapping and loading it again gives exactly that
    mapping, whatever the document held before: the write replaces the
    whole document, so entries that are not in the mapping written are
    gone.  This needs the document to be readable and the json library to
    read back the text it wrote. *)
Theorem write_then_load (d : gmap string json) (fs fs' : filesystem) :
  can_read fs ->
  loads (dumps (JObj d)) = Return (JObj d) ->
  write_saved_analyses d fs = Return fs' ->
  load_saved_analyses fs' = Return d /\
  content <$> (fs' !! SAVED_JSON) = Some (dumps (JObj d)) /\
  (forall path, path <> SAVED_JSON -> fs' !! path = fs !! path).
Proof.
  intros Hr Hrt Hwrite. split; [by apply (load_after_write d fs fs')|].
  assert (can_write fs) as Hw.
  { unfold can_write. destruct (fs !! SAVED_JSON) as [f|] eqn:E; [|done].
    destruct (writable f) eqn:Ew; [done|].
    destruct (write_saved_analyses_refused d fs f E Ew) as [Hx _]. congruence. }
  rewrite (write_saved_analyses_effect d fs Hw) in Hwrite.
  injection Hwrite as <-. split.
  - by rewrite lookup_insert_eq.
  - intros path Hne. by rewrite lookup_insert_ne.
Qed.

(** X7.  The last write wins: writing [d1] and then [d2] leaves the file
    system that writing [d2] alone leaves; nothing of [d1] is merged. *)
Theorem last_write_wins (d1 d2 : gmap string json) (fs fs1 : filesystem) :
  write_saved_analyses d1 fs = Return fs1 ->
  write_saved_analyses d2 fs1 = write_saved_analyses d2 fs /\
  exists fs2, write_saved_analyses d2 fs1 = Return fs2.
Proof.
  intros H1.
  assert (can_write fs) as Hw.
  { unfold can_write. destruct (fs !! SAVED_JSON) as [f|] eqn:E; [|done].
    destruct (writable f) eqn:Ew; [done|].
    destruct (write_saved_analyses_refused d1 fs f E Ew) as [Hx _]. congruence. }
  rewrite (write_saved_analyses_effect d1 fs Hw) in H1. injection H1 as <-.
  assert (can_write (<[SAVED_JSON :=
            File (readable (truncated fs)) true (dumps (JObj d1))]> fs)) as Hw1
    by (unfold can_write; by rewrite lookup_insert_eq).
  rewrite (write_saved_analyses_effect d2 _ Hw1),
    (write_saved_analyses_effect d2 fs Hw).
  rewrite insert_insert_eq.
  assert (readable (truncated (<[SAVED_JSON :=
            File (readable (truncated fs)) true (dumps (JObj d1))]> fs))
          = readable (truncated fs)) as ->
    by (unfold truncated at 1; by rewrite lookup_insert_eq).
  split; [reflexivity | eauto].
Qed.

(** X8.  A reader that comes between the open and the first write of
    [write_saved_analyses] finds the document empty and, the json library
    rejecting the empty text, gets the empty mapping from
    [load_saved_analyses]: no error, and none of the analyses saved
    before. *)
Theorem load_during_write (d : gmap string json) (fs : filesystem) (e : Py.exn) :
  can_write fs -> can_read fs ->
  loads EmptyString = Raise e ->
  exists opened later,
    observable (write_saved_analyses_steps d) fs = opened :: later /\
    load_saved_analyses opened = Return ∅.
Proof.
  intros Hw Hr He. unfold write_saved_analyses_steps.
  change (observable (?op :: ?ops) fs)
    with (match step op fs with
          | Return fs' => fs' :: observable ops fs'
          | Raise _ => []
          end).
  rewrite (step_open fs Hw). eexists. eexists. split; [reflexivity|].
  rewrite load_saved_analyses_cases, lookup_insert_eq.
  unfold truncated, can_read in *.
  destruct (fs !! SAVED_JSON) as [f|]; simpl.
  - rewrite Hr. by rewrite He.
  - by rewrite He.
Qed.

End StoreExtras.

Section StoreExtrasExamples.

Lemma write_then_load_witness :
  load_saved_analyses granite_fs
    = Return {[ name granite := record_to_json granite ]} /\
  content <$> (granite_fs !! SAVED_JSON)
    = Some (dumps (JObj {[ name granite := record_to_json granite ]})) /\
  (forall path, path <> SAVED_JSON -> granite_fs !! path = fresh_fs !! path).
Proof.
  apply (write_then_load _ fresh_fs granite_fs).
  - exact I.
  - vm_compute. reflexivity.
  - vm_compute. reflexivity.
Defined.

Lemma last_write_wins_witness :
  write_saved_analyses
    {[ name granite_noted := record_to_json granite_noted ]} granite_fs
  = write_saved_analyses
      {[ name granite_noted := record_to_json granite_noted ]} fresh_fs
  /\ exists fs2,
       write_saved_analyses
         {[ name granite_noted := record_to_json granite_noted ]} granite_fs
       = Return fs2.
Proof.
  apply (last_write_wins {[ name granite := record_to_json granite ]}).
  vm_compute. reflexivity.
Defined.

Lemma load_during_write_witness :
  exists opened later,
    observable
      (write_saved_analyses_steps
         {[ name granite_noted := record_to_json granite_noted ]})
      granite_fs = opened :: later /\
    load_saved_analyses opened = Return ∅.
Proof.
  apply (load_during_write _ granite_fs JSONDecodeError).
  - reflexivity.
  - reflexivity.
  - vm_compute. reflexivity.
Defined.

End StoreExtrasExamples.

(** ** The page script *)

Import App.

Section AppFacts.

Lemma bind_run {A B} (c : M A) (k : A -> M B) (u : ui) :
  (c ≫= k) u = match c u with
               | (Done a, u') => k a u'
               | (Raised e, u') => (Raised e, u')
               end.
Proof. reflexivity. Qed.

Lemma ui_eta (u : ui) : UI (session_state u) (shown u) = u.
Proof. by destruct u. Qed.

Lemma oxide_key_inj a b : oxide_key a = oxide_key b -> a = b.
Proof. unfold oxide_key. apply String.app_inj. Qed.

Lemma inputs_from_cons x xs f :
  inputs_from (x :: xs) f = <[oxide_key x := VFloat (f x)]> (inputs_from xs f).
Proof. reflexivity. Qed.

Lemma lookup_inputs_from_Some xs f k v :
  inputs_from xs f !! k = Some v ->
  exists ox, In ox xs /\ k = oxide_key ox /\ v = VFloat (f ox).
Proof.
  induction xs as [|x xs IH]; [done|].
  rewrite inputs_from_cons, lookup_insert. case_decide as E.
  - intros [= <-]. exists x. split; [by left | done].
  - intros Hk. destruct (IH Hk) as (ox & Hin & -> & ->).
    exists ox. split; [by right | done].
Qed.

Lemma lookup_inputs_from_In xs f ox :
  In ox xs -> inputs_from xs f !! oxide_key ox = Some (VFloat (f ox)).
Proof.
  induction xs as [|x xs IH]; [done|]. intros Hin.
  rewrite inputs_from_cons, lookup_insert. case_decide as E.
  - by apply oxide_key_inj in E as ->.
  - destruct Hin as [->|Hin]; [done | by apply IH].
Qed.

Lemma lookup_inputs_from_None xs f k :
  (forall ox, In ox xs -> k <> oxide_key ox) -> inputs_from xs f !! k = None.
Proof.
  intros Hk. destruct (inputs_from xs f !! k) as [v|] eqn:E; [|done].
  apply lookup_inputs_from_Some in E as (ox & Hin & -> & _).
  by destruct (Hk ox Hin).
Qed.

(** Overwriting one entry before or after the union with the entries of
    the oxides. *)
Lemma inputs_from_union_insert xs f x (ss : gmap string value) :
  inputs_from xs f ∪ <[oxide_key x := VFloat (f x)]> ss
  = <[oxide_key x := VFloat (f x)]> (inputs_from xs f) ∪ ss.
Proof.
  apply map_eq. intros k.
  rewrite !lookup_union, !lookup_insert. case_decide as E.
  - subst k. destruct (inputs_from xs f !! oxide_key x) as [w|] eqn:Ew.
    + apply lookup_inputs_from_Some in Ew as (ox & _ & Hk & ->).
      apply oxide_key_inj in Hk as <-. by destruct (ss !! oxide_key x).
    + by destruct (ss !! oxide_key x).
  - reflexivity.
Qed.

(** A loop that stores [f ox] for each oxide of [xs]. *)
Lemma store_loop xs f (u : ui) :
  for_each xs (fun ox => setitem (oxide_key ox) (VFloat (f ox))) u
  = (Done tt, UI (inputs_from xs f ∪ session_state u) (shown u)).
Proof.
  revert u. induction xs as [|x xs IH]; intros u.
  - simpl. unfold inputs_from. simpl. rewrite (left_id ∅ (∪)). by rewrite ui_eta.
  - change (for_each (x :: xs) ?body) with (body x ;; for_each xs body).
    rewrite bind_run. unfold setitem at 1. rewrite IH. simpl.
    by rewrite inputs_from_union_insert, inputs_from_cons.
Qed.

(** The loop of lines 141-144 on any list of oxides. *)
Lemma init_loop xs (u : ui) :
  for_each xs (fun ox =>
    let key := oxide_key ox in
    present ← contains key;
    if negb present then setitem key (VFloat 0) else mret tt) u
  = (Done tt, UI (session_state u ∪ inputs_from xs (fun _ => 0%Q)) (shown u)).
Proof.
  revert u. induction xs as [|x xs IH]; intros u.
  - simpl. unfold inputs_from. simpl. rewrite (right_id ∅ (∪)). by rewrite ui_eta.
  - change (for_each (x :: xs) ?body) with (body x ;; for_each xs body).
    rewrite bind_run. cbv zeta. rewrite bind_run. unfold contains at 1.
    destruct (session_state u !! oxide_key x) as [v|] eqn:E; simpl.
    + rewrite IH. f_equal. f_equal.
      apply map_eq. intros k. rewrite !lookup_union, inputs_from_cons.
      rewrite lookup_insert. case_decide as Ek; [|done].
      subst k. rewrite E. simpl. by destruct (inputs_from xs _ !! _).
    + unfold setitem. rewrite IH. simpl. f_equal. f_equal.
      apply map_eq. intros k. rewrite !lookup_union, inputs_from_cons.
      rewrite !lookup_insert. case_decide as Ek; [|done].
      subst k. rewrite E. simpl. by destruct (inputs_from xs _ !! _).
Qed.

Lemma for_each_ext {A} (xs : list A) (body body' : A -> M unit) :
  (forall x u, In x xs -> body x u = body' x u) ->
  forall u, for_each xs body u = for_each xs body' u.
Proof.
  induction xs as [|x xs IH]; intros Hb u; [reflexivity|].
  change (for_each (x :: xs) ?b) with (b x ;; for_each xs b).
  rewrite !bind_run, (Hb x u) by (by left).
  destruct (body' x u) as [[[]|e] u']; [|reflexivity].
  apply IH. intros y u'' Hy. apply Hb. by right.
Qed.

Lemma for_each_app {A} (xs ys : list A) (body : A -> M unit) (u : ui) :
  for_each (xs ++ ys) body u
  = match for_each xs body u with
    | (Done _, u') => for_each ys body u'
    | (Raised e, u') => (Raised e, u')
    end.
Proof.
  revert u. induction xs as [|x xs IH]; intros u; [reflexivity|].
  change (for_each ((x :: xs) ++ ys) body)
    with (body x ;; for_each (xs ++ ys) body).
  change (for_each (x :: xs) body) with (body x ;; for_each xs body).
  rewrite !bind_run. destruct (body x u) as [[[]|e] u']; [apply IH | reflexivity].
Qed.


Lemma csv_cell_numeric row ox q (u : ui) :
  row !! ox = Some (Numeric q) ->
  csv_cell_body row ox u = setitem (oxide_key ox) (VFloat (row_value row ox)) u.
Proof.
  intros Hq. unfold csv_cell_body, row_getitem, row_value. by rewrite Hq.
Qed.

Lemma csv_cell_non_numeric row ox (u : ui) :
  row !! ox = Some NonNumeric ->
  csv_cell_body row ox u = (Raised ValueError, u).
Proof. intros Hq. unfold csv_cell_body, row_getitem. by rewrite Hq. Qed.

Lemma csv_loop_numeric row xs (u : ui) :
  numeric_cells row xs ->
  for_each xs (csv_cell_body row) u
  = (Done tt, UI (inputs_from xs (row_value row) ∪ session_state u) (shown u)).
Proof.
  intros Hn. rewrite <- store_loop. apply for_each_ext.
  intros x u' Hx. unfold numeric_cells in Hn. rewrite List.Forall_forall in Hn.
  destruct (Hn x Hx) as [q Hq]. by apply (csv_cell_numeric row x q).
Qed.

Lemma csv_loop_non_numeric row before bad after (u : ui) :
  numeric_cells row before ->
  row !! bad = Some NonNumeric ->
  for_each (before ++ bad :: after) (csv_cell_body row) u
  = (Raised ValueError,
     UI (inputs_from before (row_value row) ∪ session_state u) (shown u)).
Proof.
  intros Hn Hbad. rewrite for_each_app, (csv_loop_numeric row before u Hn).
  change (for_each (bad :: after) ?b) with (b bad ;; for_each after b).
  by rewrite bind_run, (csv_cell_non_numeric row bad _ Hbad).
Qed.

(** The comprehension of line 185 on a session whose oxide entries hold
    floats. *)
Lemma oxide_values_typed xs acc (u : ui) :
  Forall (fun ox => match session_state u !! oxide_key ox with
                    | Some (VFloat _) | None => True
                    | Some _ => False
                    end) xs ->
  oxide_values xs acc u
  = (Done (foldl (fun a ox => <[ox := session_value (session_state u) ox]> a)
             acc xs), u).
Proof.
  revert acc. induction xs as [|x xs IH]; intros acc Hxs; [reflexivity|].
  apply List.Forall_cons_iff in Hxs as [Hx Hxs].
  change (oxide_values (x :: xs) acc)
    with (v ← session_get (oxide_key x) (VFloat 0);
          q ← py_float v; oxide_values xs (<[x := q]> acc)).
  rewrite bind_run. unfold session_get at 1. simpl.
  unfold session_value at 2.
  destruct (session_state u !! oxide_key x) as [[q| |]|]; try done;
    rewrite bind_run; simpl; by rewrite IH.
Qed.

Lemma oxide_values_untyped before bad after acc (u : ui) v :
  Forall (fun ox => match session_state u !! oxide_key ox with
                    | Some (VFloat _) | None => True
                    | Some _ => False
                    end) before ->
  session_state u !! oxide_key bad = Some v ->
  (forall q, v <> VFloat q) ->
  oxide_values (before ++ bad :: after) acc u = (Raised TypeError, u).
Proof.
  revert acc. induction before as [|x xs IH]; intros acc Hxs Hbad Hv.
  - change (oxide_values ([] ++ bad :: after) acc)
      with (v ← session_get (oxide_key bad) (VFloat 0);
            q ← py_float v; oxide_values after (<[bad := q]> acc)).
    rewrite bind_run. unfold session_get at 1. rewrite Hbad.
    destruct v as [q| |]; [by destruct (Hv q) | reflexivity | reflexivity].
  - apply List.Forall_cons_iff in Hxs as [Hx Hxs].
    change (oxide_values ((x :: xs) ++ bad :: after) acc)
      with (v ← session_get (oxide_key x) (VFloat 0);
            q ← py_float v;
            oxide_values (xs ++ bad :: after) (<[x := q]> acc)).
    rewrite bind_run. unfold session_get at 1. simpl.
    destruct (session_state u !! oxide_key x) as [[q| |]|]; try done;
      rewrite bind_run; simpl; by apply IH.
Qed.

Lemma composition_of_fold (f : string -> Q) :
  foldl (fun a ox => <[ox := f ox]> a) ∅ OXIDES = composition_of f.
Proof.
  apply map_eq. intros k. unfold composition_of, OXIDES. simpl.
  repeat (rewrite lookup_insert; case_decide; [subst k; reflexivity|]).
  rewrite lookup_empty.
  repeat (rewrite lookup_insert_ne by done). by rewrite lookup_empty.
Qed.


Lemma oxide_typed_union_inputs_any f (ss : gmap string value) :
  oxide_typed (inputs_of f ∪ ss).
Proof.
  unfold oxide_typed, inputs_of. apply List.Forall_forall. intros ox Hox.
  rewrite lookup_union, (lookup_inputs_from_In OXIDES f ox Hox).
  by destruct (ss !! oxide_key ox).
Qed.



(** X9.  The defaults of lines 141-144: every entry the session already
    has is kept, oxide entries included, each oxide entry that is missing
    is set to 0.0, nothing is shown and nothing is raised; doing it again
    changes nothing. *)
Theorem init_session_state_defaults (u : ui) :
  init_session_state u
    = (Done tt, UI (session_state u ∪ inputs_of (fun _ => 0%Q)) (shown u))
  /\ init_session_state
       (UI (session_state u ∪ inputs_of (fun _ => 0%Q)) (shown u))
     = (Done tt, UI (session_state u ∪ inputs_of (fun _ => 0%Q)) (shown u)).
Proof.
  unfold init_session_state. rewrite !init_loop. split; [reflexivity|].
  simpl. f_equal. f_equal. unfold inputs_of.
  by rewrite <- (assoc_L (∪)), (idemp_L (∪)).
Qed.


Lemma reset_run (u : ui) :
  reset_button true u
  = (Raised RerunException,
     UI (inputs_of (fun _ => 0%Q) ∪ session_state u)
        (shown u ++ [Success "All inputs reset to 0.0"])).
Proof.
  unfold reset_button. rewrite bind_run, store_loop. reflexivity.
Qed.

(** The upload of a one-row table that has the ten columns. *)
Lemma csv_upload_one_row (df : frame) (row : gmap string cell) (u : ui) :
  rows df = [row] -> missing_columns df = [] ->
  csv_upload (Some (Done df)) u
  = try_except
      (for_each OXIDES (csv_cell_body row);;
       st_success "Values loaded from CSV successfully";;
       st_rerun)
      (st_error "CSV contains non-numeric value(s) in oxide columns.") u.
Proof.
  intros Hrows Hmissing. unfold csv_upload, try_except_Exception.
  rewrite bind_run. simpl. rewrite Hrows. simpl. rewrite Hmissing.
  rewrite bind_run. unfold iloc. rewrite Hrows. simpl.
  match goal with
  | |- match ?t with _ => _ end = _ => destruct t as [[a|e] u'] eqn:E
  end; [reflexivity|].
  exfalso. unfold try_except in E.
  match type of E with
  | match ?t with _ => _ end = _ => destruct t as [[[]|e'] u'']
  end; discriminate E.
Qed.

Lemma csv_upload_loaded_run (df : frame) (row : gmap string cell) (u : ui) :
  rows df = [row] -> missing_columns df = [] -> numeric_cells row OXIDES ->
  csv_upload (Some (Done df)) u
  = (Done tt,
     UI (inputs_of (row_value row) ∪ session_state u)
        (shown u ++ [Success "Values loaded from CSV successfully";
                     Error "CSV contains non-numeric value(s) in oxide columns."])).
Proof.
  intros Hrows Hmissing Hnum.
  rewrite (csv_upload_one_row df row u Hrows Hmissing).
  unfold try_except. rewrite bind_run, (csv_loop_numeric row OXIDES u Hnum).
  simpl. unfold st_error, show, inputs_of. simpl.
  by rewrite <- (assoc_L (++)).
Qed.

Lemma csv_upload_partial_run (df : frame) (row : gmap string cell)
    (before : list string) (bad : string) (after : list string) (u : ui) :
  rows df = [row] -> missing_columns df = [] ->
  OXIDES = (before ++ bad :: after)%list ->
  numeric_cells row before -> row !! bad = Some NonNumeric ->
  csv_upload (Some (Done df)) u
  = (Done tt,
     UI (inputs_from before (row_value row) ∪ session_state u)
        (shown u ++ [Error "CSV contains non-numeric value(s) in oxide columns."])).
Proof.
  intros Hrows Hmissing Hox Hnum Hbad.
  rewrite (csv_upload_one_row df row u Hrows Hmissing).
  unfold try_except. rewrite bind_run, Hox.
  by rewrite (csv_loop_non_numeric row before bad after u Hnum Hbad).
Qed.

(** X11.  An upload that is rejected before any cell is read leaves the
    session as it was and shows one error: when [pd.read_csv] raises, when
    the table does not have exactly one row, and when an oxide column is
    missing, the error then listing the missing oxides in the order of
    [OXIDES].  With no file uploaded nothing happens. *)
Theorem csv_upload_rejected (u : ui) :
  (forall e, is_Exception e = true ->
     csv_upload (Some (Raised e)) u
     = (Done tt, UI (session_state u) (shown u ++ [ErrorFailedToRead e])))
  /\ (forall df, length (rows df) <> 1%nat ->
        csv_upload (Some (Done df)) u
        = (Done tt,
           UI (session_state u)
              (shown u ++ [Error "CSV must contain exactly one row (one analysis)."])))
  /\ (forall df, length (rows df) = 1%nat -> missing_columns df <> [] ->
        csv_upload (Some (Done df)) u
        = (Done tt,
           UI (session_state u)
              (shown u ++ [ErrorMissingColumns (missing_columns df)])))
  /\ csv_upload None u = (Done tt, u).
Proof.
  split; [|split; [|split]].
  - intros e He. unfold csv_upload, try_except_Exception.
    rewrite bind_run. simpl. by rewrite He.
  - intros df Hlen. unfold csv_upload, try_except_Exception.
    rewrite bind_run. simpl.
    apply Nat.eqb_neq in Hlen. by rewrite Hlen.
  - intros df Hlen Hmissing. unfold csv_upload, try_except_Exception.
    rewrite bind_run. simpl. rewrite Hlen. simpl.
    by destruct (missing_columns df).
  - reflexivity.
Qed.

(** X12.  A one-row table with the ten oxide columns, all numeric: every
    oxide entry of the session becomes the number of its cell, negative
    numbers included; the exception by which [st.rerun()] halts the run is
    caught by the bare [except] around it, so the handler returns, the
    run goes on, and after the success message the error
    "CSV contains non-numeric value(s) in oxide columns." is shown. *)
Theorem csv_upload_loaded (df : frame) (row : gmap string cell) (u : ui) :
  rows df = [row] -> missing_columns df = [] -> numeric_cells row OXIDES ->
  csv_upload (Some (Done df)) u
  = (Done tt,
     UI (inputs_of (row_value row) ∪ session_state u)
        (shown u ++ [Success "Values loaded from CSV successfully";
                     Error "CSV contains non-numeric value(s) in oxide columns."])).
Proof. exact (csv_upload_loaded_run df row u). Qed.

(** X13.  A one-row table with the ten oxide columns in which the cell of
    one oxide is not numeric: the oxides that come before it in [OXIDES]
    have already been overwritten with their cells, the others keep the
    values they had, and the error is shown; the session is left holding
    a mixture of the two analyses. *)
Theorem csv_upload_partial (df : frame) (row : gmap string cell)
    (before : list string) (bad : string) (after : list string) (u : ui) :
  rows df = [row] -> missing_columns df = [] ->
  OXIDES = (before ++ bad :: after)%list ->
  numeric_cells row before -> row !! bad = Some NonNumeric ->
  csv_upload (Some (Done df)) u
  = (Done tt,
     UI (inputs_from before (row_value row) ∪ session_state u)
        (shown u ++ [Error "CSV contains non-numeric value(s) in oxide columns."]))
  /\ Forall (fun ox =>
               (inputs_from before (row_value row) ∪ session_state u)
                 !! oxide_key ox = session_state u !! oxide_key ox)
            (bad :: after).
Proof.
  intros Hrows Hmissing Hox Hnum Hbad.
  split; [by apply (csv_upload_partial_run df row before bad after)|].
  assert (NoDup (before ++ bad :: after)%list) as Hnd.
  { rewrite <- Hox. apply NoDup_ListNoDup. unfold OXIDES.
    repeat (constructor; [simpl; intuition discriminate|]). constructor. }
  apply List.Forall_forall. intros ox Hin.
  rewrite lookup_union, lookup_inputs_from_None;
    [destruct (session_state u !! oxide_key ox); reflexivity|].
  intros ox' Hin' Heq. apply oxide_key_inj in Heq as <-.
  apply NoDup_app in Hnd as (_ & Hdisj & _).
  apply (Hdisj ox); by apply list_elem_of_In.
Qed.

Local Open Scope Q_scope.

(** For any composition: the call returns, with the nine minerals, and
    the weights add up to 100 within 1e-3 or are all the literal 0. *)
Lemma calculate_cipw_total (oxides : gmap string Q) :
  exists minerals,
    calculate_cipw oxides = Return (minerals, descriptions) /\
    Py.keys minerals = MINERALS /\
    (Qabs (Py.sum (Py.values minerals) - 100) <= 1 # 1000
     \/ Forall (fun w => w = 0) (Py.values minerals)).
Proof.
  destruct (calculate_cipw_cases oxides) as (raw & Hraw & Hk & [[Ht Hc]|[Ht Hc]]).
  - eexists. split; [exact Hc|]. split; [by rewrite keys_normalized|]. left.
    assert (~ Py.sum (Py.values raw) == 0) as Hne by lra.
    pose proof (sum_normalized_error _ raw Hne) as He.
    rewrite (length_raw raw Hk) in He.
    assert (Py.sum (Py.values raw) / Py.sum (Py.values raw) * 100 == 100) as E
      by (field; exact Hne).
    rewrite E in He. apply Qabs_Qle_condition in He. apply Qabs_Qle_condition.
    change (inject_Z (Z.of_nat 9) * (1 # 20000)) with (9 # 20000) in He. lra.
  - eexists. split; [exact Hc|]. split; [by rewrite keys_zeroed|]. right.
    unfold Py.values, zeroed. rewrite map_map. simpl.
    apply List.Forall_map, List.Forall_forall. reflexivity.
Qed.



Lemma composition_of_ext (f g : string -> Q) :
  Forall (fun ox => f ox = g ox) OXIDES -> composition_of f = composition_of g.
Proof.
  intros Hfg. unfold composition_of. f_equal.
  apply map_ext_in. intros ox Hox.
  rewrite List.Forall_forall in Hfg. by rewrite (Hfg ox Hox).
Qed.

Lemma session_value_inputs_of (f : string -> Q) (ss : gmap string value) :
  composition_of (session_value (inputs_of f ∪ ss)) = composition_of f.
Proof.
  apply composition_of_ext, List.Forall_forall. intros ox Hox.
  unfold session_value, inputs_of.
  rewrite lookup_union, (lookup_inputs_from_In OXIDES f ox Hox).
  destruct (ss !! oxide_key ox); reflexivity.
Qed.

Lemma results_rows_columns (minerals : list (string * Q)) :
  Py.keys minerals = MINERALS ->
  map Mineral (results_rows minerals descriptions) = MINERALS /\
  map Normative_wt (results_rows minerals descriptions) = Py.values minerals /\
  map Description (results_rows minerals descriptions) = Py.values descriptions.
Proof.
  intros Hk. unfold results_rows. rewrite !map_map. simpl.
  split; [exact Hk|]. split; [reflexivity|].
  transitivity (map (fun k => default EmptyString (item descriptions k))
                  (Py.keys minerals)).
  - unfold Py.keys. by rewrite map_map.
  - rewrite Hk. reflexivity.
Qed.

Lemma calculate_run (u : ui) (stamp iso : string) minerals :
  oxide_typed (session_state u) ->
  calculate_cipw (composition_of (session_value (session_state u)))
    = Return (minerals, descriptions) ->
  calculate_button true stamp iso u
  = (Raised RerunException,
     UI (<["last_meta" := VMeta {| meta_name := "Analysis_" ++ stamp;
                                   meta_date := iso;
                                   meta_note := EmptyString |}]>
           (<["last_results_df" := VResults (results_rows minerals descriptions)]>
              (session_state u)))
        (shown u ++ [Success "Calculation done. See results on the right."])).
Proof.
  intros Ht Hcalc. unfold calculate_button.
  rewrite bind_run, (oxide_values_typed OXIDES ∅ u Ht), composition_of_fold.
  rewrite bind_run, Hcalc. reflexivity.
Qed.




(** X14.  The Calculate handler on a session whose oxide entries hold
    floats: it runs [calculate_cipw] on the ten session values (0.0 for a
    missing one), stores one row per mineral in the order of the nine
    minerals, each with the weight returned and the description of the
    table (the default "" of [descriptions.get] is never used), stores the
    meta data, shows the success message and halts the run by
    [st.rerun()]; the oxide entries are not changed.  When the button was
    not clicked nothing happens. *)
Theorem calculate_button_stores_results (u : ui) (stamp iso : string) :
  oxide_typed (session_state u) ->
  (exists minerals rows,
     calculate_cipw (composition_of (session_value (session_state u)))
       = Return (minerals, descriptions) /\
     calculate_button true stamp iso u
       = (Raised RerunException,
          UI (<["last_meta" := VMeta {| meta_name := "Analysis_" ++ stamp;
                                        meta_date := iso;
                                        meta_note := EmptyString |}]>
                (<["last_results_df" := VResults rows]> (session_state u)))
             (shown u ++ [Success "Calculation done. See results on the right."])) /\
     map Mineral rows = MINERALS /\
     map Normative_wt rows = Py.values minerals /\
     map Description rows = Py.values descriptions /\
     Forall (fun r => Description r <> EmptyString) rows)
  /\ calculate_button false stamp iso u = (Done tt, u).
Proof.
  intros Ht. split; [|reflexivity].
  destruct (calculate_cipw_total
              (composition_of (session_value (session_state u))))
    as (minerals & Hcalc & Hk & _).
  exists minerals, (results_rows minerals descriptions).
  destruct (results_rows_columns minerals Hk) as (Hm & Hw & Hd).
  split; [exact Hcalc|]. split; [by apply calculate_run|].
  split; [exact Hm|]. split; [exact Hw|]. split; [exact Hd|].
  assert (Forall (fun t => t <> EmptyString)
            (map Description (results_rows minerals descriptions))) as Hne.
  { rewrite Hd. unfold descriptions, Py.values. simpl.
    repeat constructor; discriminate. }
  rewrite List.Forall_map in Hne. exact Hne.
Qed.

(** X15.  The Reset handler sets the ten oxide entries to 0.0 whatever
    they held, leaves every other entry (the last results among them) in
    place, shows its message and halts the run; a calculation on the
    session it leaves stores nine rows of weight 0.0. *)
Theorem reset_button_zeroes (u : ui) (stamp iso : string) :
  reset_button true u
    = (Raised RerunException,
       UI (inputs_of (fun _ => 0) ∪ session_state u)
          (shown u ++ [Success "All inputs reset to 0.0"]))
  /\ reset_button false u = (Done tt, u)
  /\ exists rows u',
       calculate_button true stamp iso
         (UI (inputs_of (fun _ => 0) ∪ session_state u)
             (shown u ++ [Success "All inputs reset to 0.0"]))
       = (Raised RerunException, u') /\
       session_state u' !! "last_results_df" = Some (VResults rows) /\
       map Mineral rows = MINERALS /\
       Forall (fun r => Normative_wt r = 0) rows.
Proof.
  split; [apply reset_run|]. split; [reflexivity|].
  assert (calculate_cipw (composition_of (fun _ => 0))
          = Return (map (fun k => (k, 0)) MINERALS, descriptions)) as Hcalc
    by (vm_compute; reflexivity).
  rewrite <- (session_value_inputs_of (fun _ => 0) (session_state u)) in Hcalc.
  eexists. eexists. split.
  - apply calculate_run; [|exact Hcalc].
    by apply oxide_typed_union_inputs_any.
  - cbn [session_state].
    split; [rewrite lookup_insert_ne by done; apply lookup_insert_eq|].
    split; [reflexivity|]. repeat constructor.
Qed.










(** X20.  The column check of the upload (line 168) finds nothing missing
    exactly when each of the ten oxide symbols is a column label, other
    columns and the order of the columns being of no account; what it
    reports missing are oxide symbols, in the order of [OXIDES].  The
    header line of [csv_template_bytes], split at its commas, is the list
    [OXIDES], so a table with the columns of the template passes. *)
Theorem template_passes_column_check (df : frame) :
  (missing_columns df = [] <-> Forall (fun ox => In ox (columns df)) OXIDES)
  /\ (forall c, In c (missing_columns df)
                <-> In c OXIDES /\ ~ In c (columns df))
  /\ split_on "," (first_line csv_template_bytes) = OXIDES
  /\ (columns df = split_on "," (first_line csv_template_bytes) ->
      missing_columns df = []).
Proof.
  assert (forall c, In c (missing_columns df)
                    <-> In c OXIDES /\ ~ In c (columns df)) as Hin.
  { intros c. unfold missing_columns. rewrite filter_In.
    rewrite negb_true_iff, bool_decide_eq_false, list_elem_of_In. tauto. }
  assert (missing_columns df = []
          <-> Forall (fun ox => In ox (columns df)) OXIDES) as Hiff.
  { rewrite List.Forall_forall. split.
    - intros Hm ox Hox.
      destruct (decide (ox ∈ columns df)) as [Hc|Hc];
        [by apply list_elem_of_In|].
      assert (In ox (missing_columns df)) as Habs
        by (apply Hin; split; [exact Hox | by rewrite <- list_elem_of_In]).
      rewrite Hm in Habs. destruct Habs.
    - intros Hall. destruct (missing_columns df) as [|c cs] eqn:E; [done|].
      destruct (proj1 (Hin c) (or_introl eq_refl)) as [Hox Hn].
      destruct (Hn (Hall c Hox)). }
  split; [exact Hiff|]. split; [exact Hin|].
  split; [vm_compute; reflexivity|].
  intros Hcols. apply Hiff. rewrite Hcols.
  assert (split_on "," (first_line csv_template_bytes) = OXIDES) as ->
    by (vm_compute; reflexivity).
  apply List.Forall_forall. auto.
Qed.

End AppFacts.

Section AppExamples.
Local Open Scope Q_scope.

Lemma new_session_typed : oxide_typed (session_state new_session).
Proof. unfold oxide_typed, OXIDES. repeat constructor. Qed.

Lemma scenario_row_numeric : numeric_cells scenario_row OXIDES.
Proof.
  unfold numeric_cells, OXIDES.
  repeat (apply List.Forall_cons; [eexists; vm_compute; reflexivity|]).
  constructor.
Qed.



Lemma csv_upload_rejected_witness :
  csv_upload (Some (Raised (ReadCsvError "No columns to parse from file")))
    new_session
  = (Done tt,
     UI ∅ [ErrorFailedToRead (ReadCsvError "No columns to parse from file")])
  /\ csv_upload
       (Some (Done {| columns := OXIDES; rows := [scenario_row; scenario_row] |}))
       new_session
     = (Done tt,
        UI ∅ [Error "CSV must contain exactly one row (one analysis)."])
  /\ csv_upload
       (Some (Done {| columns := ["SiO2"; "MgO"]; rows := [scenario_row] |}))
       new_session
     = (Done tt,
        UI ∅ [ErrorMissingColumns
                ["Al2O3"; "Fe2O3"; "FeO"; "CaO"; "Na2O"; "K2O"; "TiO2"; "P2O5"]]).
Proof.
  destruct (csv_upload_rejected new_session) as (Hread & Hrows & Hmissing & _).
  split; [|split].
  - apply Hread. reflexivity.
  - apply (Hrows {| columns := OXIDES; rows := [scenario_row; scenario_row] |}).
    discriminate.
  - apply (Hmissing {| columns := ["SiO2"; "MgO"]; rows := [scenario_row] |}).
    + reflexivity.
    + discriminate.
Defined.

Lemma csv_upload_loaded_witness :
  csv_upload (Some (Done scenario_frame)) new_session
  = (Done tt,
     UI (inputs_of (row_value scenario_row) ∪ session_state new_session)
        (shown new_session
           ++ [Success "Values loaded from CSV successfully";
               Error "CSV contains non-numeric value(s) in oxide columns."])).
Proof.
  apply (csv_upload_loaded scenario_frame scenario_row new_session).
  - reflexivity.
  - reflexivity.
  - exact scenario_row_numeric.
Defined.

Lemma csv_upload_partial_witness :
  csv_upload (Some (Done text_in_MgO_frame)) new_session
  = (Done tt,
     UI (inputs_from ["SiO2"; "Al2O3"; "Fe2O3"; "FeO"]
           (row_value text_in_MgO_row) ∪ session_state new_session)
        (shown new_session
           ++ [Error "CSV contains non-numeric value(s) in oxide columns."]))
  /\ Forall (fun ox =>
               (inputs_from ["SiO2"; "Al2O3"; "Fe2O3"; "FeO"]
                  (row_value text_in_MgO_row) ∪ session_state new_session)
                 !! oxide_key ox = session_state new_session !! oxide_key ox)
            ["MgO"; "CaO"; "Na2O"; "K2O"; "TiO2"; "P2O5"].
Proof.
  apply (csv_upload_partial text_in_MgO_frame text_in_MgO_row
           ["SiO2"; "Al2O3"; "Fe2O3"; "FeO"] "MgO"
           ["CaO"; "Na2O"; "K2O"; "TiO2"; "P2O5"] new_session).
  - reflexivity.
  - reflexivity.
  - reflexivity.
  - unfold numeric_cells.
    repeat (apply List.Forall_cons; [eexists; vm_compute; reflexivity|]).
    constructor.
  - vm_compute. reflexivity.
Defined.

Lemma calculate_button_stores_results_witness :
  exists rows u',
    calculate_button true "20240501_103000" "2024-05-01T10:30:00" new_session
      = (Raised RerunException, u') /\
    session_state u' !! "last_results_df" = Some (VResults rows) /\
    map Mineral rows = MINERALS.
Proof.
  destruct (calculate_button_stores_results new_session
              "20240501_103000" "2024-05-01T10:30:00" new_session_typed)
    as [(minerals & rows & _ & Hrun & Hm & _) _].
  exists rows. eexists. split; [exact Hrun|]. split; [|exact Hm].
  cbn [session_state]. rewrite lookup_insert_ne by done.
  apply lookup_insert_eq.
Defined.





Lemma template_passes_column_check_witness :
  missing_columns scenario_frame = [].
Proof.
  apply (template_passes_column_check scenario_frame).
  vm_compute. reflexivity.
Defined.

(** The session the end-to-end composition leaves when it is typed into
    the widgets of a new session and Calculate is clicked. *)
Example script_run_scenario :
  exists u',
    script_run click_calculate new_session = (Raised RerunException, u') /\
    (exists rows,
       session_state u' !! "last_results_df" = Some (VResults rows) /\
       map Normative_wt rows
       = [187534 # 10000; 129892 # 10000; 252282 # 10000; 162365 # 10000;
          119430 # 10000; 71065 # 10000; 42343 # 10000; 18655 # 10000;
          16434 # 10000]) /\
    shown u' = [Success "Calculation done. See results on the right."].
Proof.
  eexists. split; [vm_compute; reflexivity|].
  split; [|reflexivity]. eexists. split; reflexivity.
Qed.

End AppExamples.
